(** * Agent Execution & Validation Core

    A shallow embedding of [agent_sdk/base_agent.py] (class [BaseAgent] and
    the dataclasses next to it) and the properties of its lifecycle,
    schema validation, event bus and health tracker.

    Definitions:
    - [Regex]: regular expressions with Brzozowski derivatives;
    - [Py]: the fragment of the host language the agent relies on
      (dynamically typed values, insertion-ordered dicts, exceptions,
      comparison, [str], [in], [re.match]);
    - [Agent]: the state, the effects and every method of [BaseAgent] the
      properties are about;
    - [Sample]: concrete runtimes, hooks, handlers and manifests;
    - [Observe]: the vocabulary of the statements;
    - [Events]: [publish_event] and the accessors;
    - [Describe], [MoreSamples]: vocabulary and concrete data of the
      further properties.

    Theorems follow, one group per part of the agent.

    What the embedding assumes of the code around the agent: the three
    hooks and the event handlers return or raise but do not assign to the
    agent's attributes or call its methods; calls are sequential (one
    [await] after the other); floats are rationals; the handlers and
    filters of [logging] return.  A string is the sequence of its bytes,
    which are its characters when it is ASCII, and [str] of an integer is
    its decimal numeral: the interpreter's limit on the digits of an
    integer it converts is not modelled.  The statement about lengths is
    restricted accordingly. *)

From Stdlib Require Import ZArith QArith.QArith_base Ascii String Lia.
From stdpp Require Import base option list strings pretty gmap.

Set Warnings "-register-all".

Local Open Scope Z_scope.
Local Open Scope string_scope.
Local Open Scope list_scope.

(* ===================================================================== *)
(** * Regular expressions *)
(* ===================================================================== *)

Module Regex.

(** The regular core of the pattern language: what [re.compile] yields
    for patterns without anchors, look-around or back-references. *)
Inductive regex : Type :=
| Void                       (* matches nothing *)
| Eps                        (* matches the empty string *)
| Any                        (* [.] *)
| Chr (c : ascii)            (* a literal character *)
| Cat (r1 r2 : regex)        (* r1r2 *)
| Alt (r1 r2 : regex)        (* r1|r2 *)
| Star (r : regex).          (* r* *)

(** Declarative meaning: the strings a pattern matches in full. *)
Inductive matches : regex -> string -> Prop :=
| MEps : matches Eps ""
| MAny c : matches Any (String c "")
| MChr c : matches (Chr c) (String c "")
| MCat r1 r2 s1 s2 :
    matches r1 s1 -> matches r2 s2 -> matches (Cat r1 r2) (s1 +:+ s2)
| MAltL r1 r2 s : matches r1 s -> matches (Alt r1 r2) s
| MAltR r1 r2 s : matches r2 s -> matches (Alt r1 r2) s
| MStar0 r : matches (Star r) ""
| MStarS r s1 s2 :
    matches r s1 -> matches (Star r) s2 -> matches (Star r) (s1 +:+ s2).

Fixpoint nullable (r : regex) : bool :=
  match r with
  | Void | Any | Chr _ => false
  | Eps | Star _ => true
  | Cat r1 r2 => nullable r1 && nullable r2
  | Alt r1 r2 => nullable r1 || nullable r2
  end.

Fixpoint deriv (a : ascii) (r : regex) : regex :=
  match r with
  | Void | Eps => Void
  | Any => Eps
  | Chr c => if Ascii.eqb a c then Eps else Void
  | Cat r1 r2 =>
      if nullable r1
      then Alt (Cat (deriv a r1) r2) (deriv a r2)
      else Cat (deriv a r1) r2
  | Alt r1 r2 => Alt (deriv a r1) (deriv a r2)
  | Star r1 => Cat (deriv a r1) (Star r1)
  end.

(** [re.fullmatch(r, s) is not None]: the whole of [s] is consumed. *)
Fixpoint fullmatch (r : regex) (s : string) : bool :=
  match s with
  | EmptyString => nullable r
  | String a s' => fullmatch (deriv a r) s'
  end.

(** [re.match(r, s) is not None]: the match is anchored at the start of
    [s] only; it may stop anywhere. *)
Fixpoint match_ (r : regex) (s : string) : bool :=
  nullable r ||
  match s with
  | EmptyString => false
  | String a s' => match_ (deriv a r) s'
  end.

(** The literal pattern for a string without metacharacters. *)
Fixpoint literal (s : string) : regex :=
  match s with
  | EmptyString => Eps
  | String c s' => Cat (Chr c) (literal s')
  end.

End Regex.

(* ===================================================================== *)
(** * The host language: values, exceptions, built-in operations *)
(* ===================================================================== *)

Module Py.

(** ** Exceptions *)

(** The exception classes that occur.  [BaseOnly] stands for the classes
    that derive from [BaseException] but not from [Exception]
    ([KeyboardInterrupt], [SystemExit], [asyncio.CancelledError]): an
    [except Exception] clause lets them through. *)
Inductive exn_class : Type :=
| ValueError | TypeError | RuntimeError | KeyError | AttributeError
| RecursionError | ReError | OtherException | BaseOnly.

(** An exception: its class and [str(error)]. *)
Record exn : Type := Exn { exn_cls : exn_class; exn_msg : string }.

(** [isinstance(e, Exception)] *)
Definition is_Exception (e : exn) : bool :=
  match exn_cls e with BaseOnly => false | _ => true end.

(** The outcome of evaluating an expression or a call. *)
Inductive result (A : Type) : Type :=
| Ok (a : A)
| Raise (e : exn).
Arguments Ok {A} a.
Arguments Raise {A} e.

(** Sequencing: the first exception ends the computation. *)
Definition rbind {A B} (r : result A) (k : A -> result B) : result B :=
  match r with Ok a => k a | Raise e => Raise e end.

Declare Scope result_scope.
Delimit Scope result_scope with R.
Notation "x ← y ; z" := (rbind y (fun x => z))
  (at level 20, y at level 100, z at level 200, only parsing) : result_scope.
Notation "' x ← y ; z" := (rbind y (fun x => z))
  (at level 20, x pattern, y at level 100, z at level 200, only parsing)
  : result_scope.
Notation "x ;; z" := (rbind x (fun _ => z))
  (at level 100, z at level 200, only parsing, right associativity)
  : result_scope.

(** ** Values *)

(** JSON-like data plus [None].  A [dict] keeps insertion order, so it is
    an association list; its keys are strings.  Floats are idealised as
    rationals (no NaN, no infinities, no rounding). *)
Inductive value : Type :=
| VNone
| VBool (b : bool)
| VInt (n : Z)
| VFloat (q : Q)
| VStr (s : string)
| VList (l : list value)
| VDict (d : list (string * value)).

Abbreviation dict := (list (string * value)).

(** [type(v).__name__] *)
Definition type_name (v : value) : string :=
  match v with
  | VNone => "NoneType" | VBool _ => "bool" | VInt _ => "int"
  | VFloat _ => "float" | VStr _ => "str" | VList _ => "list"
  | VDict _ => "dict"
  end.

(** Truth value testing ([if v:]). *)
Definition truthy (v : value) : bool :=
  match v with
  | VNone => false
  | VBool b => b
  | VInt n => negb (n =? 0)%Z
  | VFloat q => negb (Qeq_bool q 0)
  | VStr s => negb (String.eqb s "")
  | VList l => match l with [] => false | _ => true end
  | VDict d => match d with [] => false | _ => true end
  end.

(** ** Dicts: [k in d], [d.get(k)], [d[k] = v], [d.update(u)] *)

Section Dict.
Context {A : Type}.

Fixpoint dict_get (d : list (string * A)) (k : string) : option A :=
  match d with
  | [] => None
  | (k', v) :: d' => if String.eqb k k' then Some v else dict_get d' k
  end.

Definition dict_has (d : list (string * A)) (k : string) : bool :=
  match dict_get d k with Some _ => true | None => false end.

(** An existing key keeps its position; a new key goes last. *)
Fixpoint dict_set (d : list (string * A)) (k : string) (v : A)
  : list (string * A) :=
  match d with
  | [] => [(k, v)]
  | (k', v') :: d' =>
      if String.eqb k k' then (k, v) :: d' else (k', v') :: dict_set d' k v
  end.

Definition dict_update (d u : list (string * A)) : list (string * A) :=
  fold_left (fun acc kv => dict_set acc (fst kv) (snd kv)) u d.

End Dict.

(** [d.get(k, default)] *)
Definition dict_get_default (d : dict) (k : string) (dflt : value) : value :=
  match dict_get d k with Some v => v | None => dflt end.

(** ** Numbers, equality, ordering *)

(** [bool] is a subclass of [int]: [True] is 1 and [False] is 0. *)
Definition num_of (v : value) : option Q :=
  match v with
  | VBool b => Some (inject_Z (Z.b2z b))
  | VInt n => Some (inject_Z n)
  | VFloat q => Some q
  | _ => None
  end.

(** [isinstance(v, (int, float))] *)
Definition is_number (v : value) : bool :=
  match v with VBool _ | VInt _ | VFloat _ => true | _ => false end.

Definition Qlt_bool (p q : Q) : bool := negb (Qle_bool q p).

(** [a == b] *)
Fixpoint py_eq (a b : value) {struct a} : bool :=
  match num_of a, num_of b with
  | Some p, Some q => Qeq_bool p q
  | _, _ =>
      match a, b with
      | VNone, VNone => true
      | VStr s, VStr t => String.eqb s t
      | VList l1, VList l2 =>
          (fix eq_list (l1 l2 : list value) {struct l1} : bool :=
             match l1, l2 with
             | [], [] => true
             | x :: l1', y :: l2' => py_eq x y && eq_list l1' l2'
             | _, _ => false
             end) l1 l2
      | VDict d1, VDict d2 =>
          (length d1 =? length d2)%nat &&
          (fix all_in (d : dict) {struct d} : bool :=
             match d with
             | [] => true
             | (k, v) :: d' =>
                 match dict_get d2 k with
                 | Some v' => py_eq v v'
                 | None => false
                 end && all_in d'
             end) d1
      | _, _ => false
      end
  end.

(** Lexicographic order of strings by character code. *)
Fixpoint str_lt (s t : string) : bool :=
  match s, t with
  | _, EmptyString => false
  | EmptyString, String _ _ => true
  | String a s', String b t' =>
      if Ascii.eqb a b then str_lt s' t'
      else (nat_of_ascii a <? nat_of_ascii b)%nat
  end.

Definition unorderable (a b : value) : exn :=
  Exn TypeError
    ("'<' not supported between instances of '" +:+ type_name a +:+
     "' and '" +:+ type_name b +:+ "'").

(** [a < b]; raises [TypeError] when the operands cannot be ordered. *)
Fixpoint py_lt (a b : value) {struct a} : result bool :=
  match num_of a, num_of b with
  | Some p, Some q => Ok (Qlt_bool p q)
  | _, _ =>
      match a, b with
      | VStr s, VStr t => Ok (str_lt s t)
      | VList l1, VList l2 =>
          (fix lt_list (l1 l2 : list value) {struct l1} : result bool :=
             match l1, l2 with
             | [], [] => Ok false
             | [], _ :: _ => Ok true
             | _ :: _, [] => Ok false
             | x :: l1', y :: l2' =>
                 if py_eq x y then lt_list l1' l2' else py_lt x y
             end) l1 l2
      | _, _ => Raise (unorderable a b)
      end
  end.

Definition unorderable_gt (a b : value) : exn :=
  Exn TypeError
    ("'>' not supported between instances of '" +:+ type_name a +:+
     "' and '" +:+ type_name b +:+ "'").

(** [a > b]: where both are defined it is [b < a]; the [TypeError] names
    [>] and the operands in the order they were given. *)
Fixpoint py_gt (a b : value) {struct a} : result bool :=
  match num_of a, num_of b with
  | Some p, Some q => Ok (Qlt_bool q p)
  | _, _ =>
      match a, b with
      | VStr s, VStr t => Ok (str_lt t s)
      | VList l1, VList l2 =>
          (fix gt_list (l1 l2 : list value) {struct l1} : result bool :=
             match l1, l2 with
             | [], _ => Ok false
             | _ :: _, [] => Ok true
             | x :: l1', y :: l2' =>
                 if py_eq x y then gt_list l1' l2' else py_gt x y
             end) l1 l2
      | _, _ => Raise (unorderable_gt a b)
      end
  end.

(** ** Strings: [sub in s], [str(v)], [len] *)

Fixpoint is_prefix (p s : string) : bool :=
  match p, s with
  | EmptyString, _ => true
  | String a p', String b s' => Ascii.eqb a b && is_prefix p' s'
  | String _ _, EmptyString => false
  end.

Fixpoint is_substring (p s : string) : bool :=
  is_prefix p s ||
  match s with
  | EmptyString => false
  | String _ s' => is_substring p s'
  end.

(** ** Membership and subscription *)

(** [x in c] *)
Definition py_in (x c : value) : result bool :=
  match c with
  | VList l => Ok (existsb (py_eq x) l)
  | VDict d =>
      match x with
      | VStr k => Ok (dict_has d k)
      | VList _ | VDict _ =>
          Raise (Exn TypeError ("unhashable type: '" +:+ type_name x +:+ "'"))
      | _ => Ok false
      end
  | VStr s =>
      match x with
      | VStr p => Ok (is_substring p s)
      | _ =>
          Raise (Exn TypeError
                   ("'in <string>' requires string as left operand, not "
                    +:+ type_name x))
      end
  | _ =>
      Raise (Exn TypeError
               ("argument of type '" +:+ type_name c +:+ "' is not iterable"))
  end.

(** [c[k]] for a string key [k] *)
Definition py_getitem (c : value) (k : string) : result value :=
  match c with
  | VDict d =>
      match dict_get d k with
      | Some v => Ok v
      | None => Raise (Exn KeyError ("'" +:+ k +:+ "'"))
      end
  | VList _ =>
      Raise (Exn TypeError "list indices must be integers or slices, not str")
  | VStr _ =>
      Raise (Exn TypeError "string indices must be integers, not 'str'")
  | _ =>
      Raise (Exn TypeError
               ("'" +:+ type_name c +:+ "' object is not subscriptable"))
  end.

(** ** What the interpreter and its libraries supply *)

(** [py_repr] is [repr], which [str] falls back on for floats, lists and
    dicts; [re_compile] is the pattern parser of [re] ([None]: [re.error],
    whose text is [re_error_text]);
    [uuid4], [time_time] and [now_isoformat] are read at a tick counter
    that every reading advances; [recursion_limit] bounds the depth of
    nested calls before [RecursionError]; [isEnabledFor] is the method of
    the agent's logger, on the numeric level of [logging], and
    [record_attributes] are the names in the [__dict__] of a new
    [logging.LogRecord] ([name], [msg], [args], [levelname], ...). *)
Class Runtime : Type := {
  py_repr : value -> string;
  re_compile : string -> option Regex.regex;
  re_error_text : string -> string;
  uuid4 : nat -> string;
  time_time : nat -> Q;
  now_isoformat : nat -> string;
  recursion_limit : nat;
  isEnabledFor : Z -> bool;
  record_attributes : list string
}.

Section Builtins.
Context {rt : Runtime}.

(** [str(v)].  The numeral of an integer is given whatever its size: the
    interpreter refuses to convert one of more digits than its limit
    (4300 unless configured, never below 640). *)
Definition py_str (v : value) : string :=
  match v with
  | VNone => "None"
  | VBool true => "True"
  | VBool false => "False"
  | VInt n => pretty n
  | VStr s => s
  | VFloat _ | VList _ | VDict _ => py_repr v
  end.

(** [len(str(v))]: the number of characters, which is the number of
    bytes counted here when the string is ASCII. *)
Definition len_str (v : value) : value :=
  VInt (Z.of_nat (String.length (py_str v))).

(** [re.match(pattern, s) is not None] *)
Definition re_match (pattern : value) (s : string) : result bool :=
  match pattern with
  | VStr p =>
      match re_compile p with
      | Some r => Ok (Regex.match_ r s)
      | None => Raise (Exn ReError (re_error_text p))
      end
  | _ =>
      Raise (Exn TypeError "first argument must be string or compiled pattern")
  end.

End Builtins.

(** [c.get(k, default)]: only a dict has the method. *)
Definition py_get (c : value) (k : string) (dflt : value) : result value :=
  match c with
  | VDict d => Ok (dict_get_default d k dflt)
  | _ =>
      Raise (Exn AttributeError
               ("'" +:+ type_name c +:+ "' object has no attribute 'get'"))
  end.

End Py.

(* ===================================================================== *)
(** * The agent *)
(* ===================================================================== *)

Module Agent.
Import Py.

(** ** Data model *)

Record AgentContext : Type := {
  agent_id : string;
  session_id : string;
  user_id : option string;
  metadata : dict
}.

Record AgentHealth : Type := {
  status : string;
  details : dict;
  metrics : dict
}.

Inductive LogLevel : Type := DEBUG | INFO | WARN | ERROR.

Definition level_value (l : LogLevel) : string :=
  match l with
  | DEBUG => "debug" | INFO => "info" | WARN => "warn" | ERROR => "error"
  end.

(** [dataclasses.asdict] *)
Definition asdict_context (c : AgentContext) : value :=
  VDict [("agent_id", VStr (agent_id c));
         ("session_id", VStr (session_id c));
         ("user_id", match user_id c with Some u => VStr u | None => VNone end);
         ("metadata", VDict (metadata c))].

Definition asdict_health (h : AgentHealth) : value :=
  VDict [("status", VStr (status h));
         ("details", VDict (details h));
         ("metrics", VDict (metrics h))].

(** A subscriber: a callable that is handed the event data and returns or
    raises.  [h_id] names it in the trace.  Handlers observe only: they do
    not call back into the agent. *)
Record handler : Type := {
  h_id : nat;
  h_call : value -> result unit
}.

Record BaseAgent : Type := {
  manifest : dict;
  context : option AgentContext;
  config : dict;
  is_running : bool;
  health_status : AgentHealth;
  _event_handlers : gmap string (list handler)
}.

(** The three abstract methods a concrete agent implements.  They read the
    agent and return or raise; they do not touch the fields above and emit
    no events of their own. *)
Class AgentHooks : Type := {
  on_initialize : BaseAgent -> result unit;
  on_shutdown : BaseAgent -> result unit;
  on_execute : BaseAgent -> value -> result value
}.

(** ** Effects *)

(** What a call does that an observer can see, in order: [Emitted] marks a
    call of [_emit_event], [Delivered] one invocation of a handler,
    [LogRecord] one message the logger was handed and took. *)
Inductive obs : Type :=
| Emitted (event_type : string) (data : value)
| Delivered (h : nat) (event_type : string) (data : value)
| LogRecord (level : LogLevel) (message : string).

(** The mutable state a method runs in: the agent and the tick counter. *)
Record store : Type := {
  self : BaseAgent;
  ticks : nat
}.

(** A method: from the store to its outcome, the new store and what it
    emitted.  An exception keeps the effects that happened before it. *)
Definition M (A : Type) : Type := store -> result A * store * list obs.

Definition pure {A} (a : A) : M A := fun st => (Ok a, st, []).

(** What was emitted before a step goes in front of what the step emits. *)
Definition prepend {A} (o : list obs) (x : result A * store * list obs)
  : result A * store * list obs :=
  let '(r, st, o') := x in (r, st, o ++ o').

Definition bind {A B} (m : M A) (k : A -> M B) : M B := fun st =>
  match m st with
  | (Ok a, st', o) => prepend o (k a st')
  | (Raise e, st', o) => (Raise e, st', o)
  end.

Declare Scope method_scope.
Delimit Scope method_scope with M.
Notation "x ← y ; z" := (bind y (fun x => z))
  (at level 20, y at level 100, z at level 200, only parsing) : method_scope.
Notation "x ;; z" := (bind x (fun _ => z))
  (at level 100, z at level 200, only parsing, right associativity)
  : method_scope.

Definition raise {A} (e : exn) : M A := fun st => (Raise e, st, []).

Definition lift {A} (r : result A) : M A := fun st => (r, st, []).

Definition tell (o : obs) : M unit := fun st => (Ok tt, st, [o]).

Definition get_self : M BaseAgent := fun st => (Ok (self st), st, []).

Definition set_self (a : BaseAgent) : M unit :=
  fun st => (Ok tt, {| self := a; ticks := ticks st |}, []).

(** One reading of a source that depends on the moment. *)
Definition tick {A} (source : nat -> A) : M A :=
  fun st => (Ok (source (ticks st)),
             {| self := self st; ticks := S (ticks st) |}, []).

(** [try: m  except Exception as error: h error] *)
Definition try_except {A} (m : M A) (h : exn -> M A) : M A := fun st =>
  match m st with
  | (Raise e, st', o) =>
      if is_Exception e then prepend o (h e st') else (Raise e, st', o)
  | returned => returned
  end.

(** [for x in xs: body x] *)
Fixpoint for_each {A} (xs : list A) (body : A -> M unit) : M unit :=
  match xs with
  | [] => pure tt
  | x :: xs' => (body x ;; for_each xs' body)%M
  end.

(** The same loop for code that has no effect but raising. *)
Fixpoint for_each_r {A} (xs : list A) (body : A -> result unit) : result unit :=
  match xs with
  | [] => Ok tt
  | x :: xs' => (body x ;; for_each_r xs' body)%R
  end.

(** ** Methods of [BaseAgent] *)

Section Validation.
Context {rt : Runtime}.
Local Open Scope result_scope.

Definition required_fields : list string :=
  ["id"; "name"; "version"; "description"; "runtime"; "inputs"; "outputs";
   "metadata"].

Definition required_metadata : list string := ["author"; "tags"; "category"].

Definition _validate_manifest (a : BaseAgent) : result unit :=
  for_each_r required_fields (fun field =>
    if negb (dict_has (manifest a) field)
    then Raise (Exn ValueError
                  ("Missing required field in manifest: " +:+ field))
    else Ok tt) ;;
  let metadata := dict_get_default (manifest a) "metadata" (VDict []) in
  for_each_r required_metadata (fun field =>
    present ← py_in (VStr field) metadata;
    if negb present
    then Raise (Exn ValueError ("Missing required metadata field: " +:+ field))
    else Ok tt).

(** The constructor: the fields are set, then the manifest is checked. *)
Definition __init__ (manifest : dict) : result BaseAgent :=
  let a := {| manifest := manifest;
              context := None;
              config := [];
              is_running := false;
              health_status :=
                {| status := "healthy"; details := []; metrics := [] |};
              _event_handlers := ∅ |} in
  _validate_manifest a ;; Ok a.

(** [k in constraints and test(constraints[k])] *)
Definition constraint_violated (constraints : value) (k : string)
    (test : value -> result bool) : result bool :=
  present ← py_in (VStr k) constraints;
  if present then c ← py_getitem constraints k; test c else Ok false.

Definition _validate_constraints (v constraints : value) (path : string)
  : result unit :=
  bad ← constraint_violated constraints "min" (fun c => py_lt v c);
  (if bad
   then c ← py_getitem constraints "min";
        Raise (Exn ValueError
                 ("Value for '" +:+ path +:+ "' must be >= " +:+ py_str c))
   else Ok tt) ;;
  bad ← constraint_violated constraints "max" (fun c => py_gt v c);
  (if bad
   then c ← py_getitem constraints "max";
        Raise (Exn ValueError
                 ("Value for '" +:+ path +:+ "' must be <= " +:+ py_str c))
   else Ok tt) ;;
  bad ← constraint_violated constraints "minLength"
          (fun c => py_lt (len_str v) c);
  (if bad
   then c ← py_getitem constraints "minLength";
        Raise (Exn ValueError
                 ("Value for '" +:+ path +:+ "' must have length >= "
                  +:+ py_str c))
   else Ok tt) ;;
  bad ← constraint_violated constraints "maxLength"
          (fun c => py_gt (len_str v) c);
  (if bad
   then c ← py_getitem constraints "maxLength";
        Raise (Exn ValueError
                 ("Value for '" +:+ path +:+ "' must have length <= "
                  +:+ py_str c))
   else Ok tt) ;;
  present ← py_in (VStr "pattern") constraints;
  (if present
   then p ← py_getitem constraints "pattern";
        found ← re_match p (py_str v);
        if negb found
        then p ← py_getitem constraints "pattern";
             Raise (Exn ValueError
                      ("Value for '" +:+ path +:+ "' does not match pattern "
                       +:+ py_str p))
        else Ok tt
   else Ok tt) ;;
  bad ← constraint_violated constraints "enum"
          (fun c => found ← py_in v c; Ok (negb found));
  if bad
  then c ← py_getitem constraints "enum";
       Raise (Exn ValueError
                ("Value for '" +:+ path +:+ "' must be one of: " +:+ py_str c))
  else Ok tt.

Definition expected (kind : string) (path : string) (v : value) : exn :=
  Exn ValueError
    ("Expected " +:+ kind +:+ " for '" +:+ path +:+ "', got " +:+ type_name v).

Definition _validate_value (v schema : value) (path : string) : result unit :=
  expected_type ← py_get schema "type" VNone;
  (if py_eq expected_type (VStr "array") &&
      negb (match v with VList _ => true | _ => false end)
   then Raise (expected "array" path v) else Ok tt) ;;
  (if py_eq expected_type (VStr "object") &&
      negb (match v with VDict _ => true | _ => false end)
   then Raise (expected "object" path v) else Ok tt) ;;
  (if existsb (py_eq expected_type) [VStr "string"; VStr "text"] &&
      negb (match v with VStr _ => true | _ => false end)
   then Raise (expected "string" path v) else Ok tt) ;;
  (if py_eq expected_type (VStr "number") && negb (is_number v)
   then Raise (expected "number" path v) else Ok tt) ;;
  (if py_eq expected_type (VStr "boolean") &&
      negb (match v with VBool _ => true | _ => false end)
   then Raise (expected "boolean" path v) else Ok tt) ;;
  constraints ← py_get schema "constraints" (VDict []);
  if truthy constraints then _validate_constraints v constraints path
  else Ok tt.

(** [schema.items()]: only a dict has the method. *)
Definition py_items (c : value) : result dict :=
  match c with
  | VDict d => Ok d
  | _ =>
      Raise (Exn AttributeError
               ("'" +:+ type_name c +:+ "' object has no attribute 'items'"))
  end.

(** The body of the loop of [_validate_input], for one declared field. *)
Definition input_field (input_data : value) (entry : string * value)
  : result unit :=
  let '(key, schema) := entry in
  required ← py_get schema "required" (VBool false);
  missing ← (if truthy required
             then present ← py_in (VStr key) input_data; Ok (negb present)
             else Ok false);
  (if missing
   then Raise (Exn ValueError ("Required input '" +:+ key +:+ "' is missing"))
   else Ok tt) ;;
  present ← py_in (VStr key) input_data;
  if present
  then v ← py_getitem input_data key; _validate_value v schema key
  else Ok tt.

Definition _validate_input (a : BaseAgent) (input_data : value) : result unit :=
  let inputs_schema := dict_get_default (manifest a) "inputs" (VDict []) in
  items ← py_items inputs_schema;
  for_each_r items (input_field input_data).

(** The body of the loop of [_validate_output]. *)
Definition output_field (output_data : value) (entry : string * value)
  : result unit :=
  let '(key, schema) := entry in
  present ← py_in (VStr key) output_data;
  (if negb present
   then Raise (Exn ValueError ("Required output '" +:+ key +:+ "' is missing"))
   else Ok tt) ;;
  v ← py_getitem output_data key;
  _validate_value v schema key.

Definition _validate_output (a : BaseAgent) (output_data : value)
  : result unit :=
  let outputs_schema := dict_get_default (manifest a) "outputs" (VDict []) in
  items ← py_items outputs_schema;
  for_each_r items (output_field output_data).

End Validation.

(** Assignments to the attributes of [self]. *)
Definition with_context (a : BaseAgent) (c : option AgentContext) : BaseAgent :=
  {| manifest := manifest a; context := c; config := config a;
     is_running := is_running a; health_status := health_status a;
     _event_handlers := _event_handlers a |}.

Definition with_config (a : BaseAgent) (c : dict) : BaseAgent :=
  {| manifest := manifest a; context := context a; config := c;
     is_running := is_running a; health_status := health_status a;
     _event_handlers := _event_handlers a |}.

Definition with_is_running (a : BaseAgent) (b : bool) : BaseAgent :=
  {| manifest := manifest a; context := context a; config := config a;
     is_running := b; health_status := health_status a;
     _event_handlers := _event_handlers a |}.

Definition with_health_status (a : BaseAgent) (h : AgentHealth) : BaseAgent :=
  {| manifest := manifest a; context := context a; config := config a;
     is_running := is_running a; health_status := h;
     _event_handlers := _event_handlers a |}.

Definition with_event_handlers (a : BaseAgent)
    (hs : gmap string (list handler)) : BaseAgent :=
  {| manifest := manifest a; context := context a; config := config a;
     is_running := is_running a; health_status := health_status a;
     _event_handlers := hs |}.

Section Lifecycle.
Context {rt : Runtime} {hooks : AgentHooks}.
Local Open Scope method_scope.

(** [self.manifest['id']] *)
Definition manifest_id : M value :=
  a ← get_self; lift (py_getitem (VDict (manifest a)) "id").

(** The level [logging] gives the method called for a [LogLevel]:
    [logger.debug], [logger.info], [logger.warning], [logger.error]. *)
Definition logging_level (level : LogLevel) : Z :=
  match level with DEBUG => 10 | INFO => 20 | WARN => 30 | ERROR => 40 end.

(** [str] of the [KeyError] of [Logger.makeRecord]: the [repr] of its
    message, which is in double quotes because it holds single ones. *)
Definition overwrite_error (key : string) : exn :=
  Exn KeyError
    (String "034" ("Attempt to overwrite '" +:+ key +:+ "' in LogRecord"
                   +:+ String "034" "")).

(** [Logger.makeRecord], as far as [extra] goes: its keys are copied into
    the record one by one, and a key that is [message], [asctime] or an
    attribute of the record is refused. *)
Definition make_record (extra : dict) : result unit :=
  for_each_r extra (fun kv =>
    if existsb (String.eqb (fst kv))
         ("message" :: "asctime" :: record_attributes)
    then Raise (overwrite_error (fst kv))
    else Ok tt).

(** [self.logger.debug(message, extra=data)] and the three like it: a
    level that is not enabled returns at once, an enabled one makes the
    record.  The handlers and filters of [logging] are taken to return. *)
Definition logger_call (level : LogLevel) (extra : dict) : result unit :=
  if isEnabledFor (logging_level level) then make_record extra else Ok tt.

(** [log], with the [_emit_event] it ends on passed in: the two methods
    call each other. *)
Definition log_with (emit : string -> value -> M unit)
    (level : LogLevel) (message : string) (data : option dict) : M unit :=
  let data := default [] data in
  timestamp ← tick now_isoformat;
  id ← manifest_id;
  a ← get_self;
  let log_entry :=
    VDict [("level", VStr (level_value level));
           ("message", VStr message);
           ("data", VDict data);
           ("timestamp", VStr timestamp);
           ("agent_id", id);
           ("session_id",
            match context a with
            | Some c => VStr (session_id c)
            | None => VNone
            end)] in
  lift (logger_call level data) ;;
  tell (LogRecord level message) ;;
  emit "log" log_entry.

(** [depth] is the room left on the call stack: a handler that raises
    makes [_emit_event] call [log], which calls [_emit_event] again, and
    when the room is used up the interpreter raises [RecursionError] in
    place of running the call.  The call of [log] stands in the [except]
    clause, so what it raises leaves the loop and the method. *)
Fixpoint _emit_event (depth : nat) (event_type : string) (data : value)
  : M unit :=
  match depth with
  | O =>
      tell (Emitted event_type data) ;;
      raise (Exn RecursionError "maximum recursion depth exceeded")
  | S depth' =>
      tell (Emitted event_type data) ;;
      a ← get_self;
      match _event_handlers a !! event_type with
      | None => pure tt
      | Some handlers =>
          for_each handlers (fun h =>
            tell (Delivered (h_id h) event_type data) ;;
            match h_call h data with
            | Ok _ => pure tt
            | Raise e =>
                if is_Exception e
                then log_with (_emit_event depth') ERROR
                       ("Error in event handler for " +:+ event_type +:+ ": "
                        +:+ exn_msg e) None
                else raise e
            end)
      end
  end.

Definition emit : string -> value -> M unit := _emit_event recursion_limit.

Definition log : LogLevel -> string -> option dict -> M unit := log_with emit.

(** [{**self.manifest.get('config', {}), **config}] *)
Definition merged_config (a : BaseAgent) (config : dict) : result dict :=
  match dict_get_default (manifest a) "config" (VDict []) with
  | VDict base => Ok (dict_update (dict_update [] base) config)
  | v =>
      Raise (Exn TypeError ("'" +:+ type_name v +:+ "' object is not a mapping"))
  end.

Definition initialize (ctx : AgentContext) (config : option dict) : M unit :=
  let config := default [] config in
  a ← get_self;
  set_self (with_context a (Some ctx)) ;;
  a ← get_self;
  merged ← lift (merged_config a config);
  set_self (with_config a merged) ;;
  a ← get_self;
  set_self (with_is_running a true) ;;
  a ← get_self;
  lift (on_initialize a) ;;
  id ← manifest_id;
  emit "agent:initialized"
    (VDict [("agent_id", id); ("context", asdict_context ctx)]).

Definition shutdown : M unit :=
  a ← get_self;
  set_self (with_is_running a false) ;;
  a ← get_self;
  lift (on_shutdown a) ;;
  id ← manifest_id;
  emit "agent:shutdown" (VDict [("agent_id", id)]).

(** [(time.time() - start_time) * 1000] *)
Definition elapsed_ms (start_time now : Q) : Q := ((now - start_time) * 1000)%Q.

(** The [try] block of [execute]. *)
Definition execute_task (task_id : string) (start_time : Q)
    (input_data : value) : M value :=
  id ← manifest_id;
  emit "task:started"
    (VDict [("task_id", VStr task_id);
            ("input", input_data);
            ("agent_id", id)]) ;;
  a ← get_self;
  lift (_validate_input a input_data) ;;
  a ← get_self;
  result ← lift (on_execute a input_data);
  a ← get_self;
  lift (_validate_output a result) ;;
  now ← tick time_time;
  let execution_time := elapsed_ms start_time now in
  id ← manifest_id;
  emit "task:completed"
    (VDict [("task_id", VStr task_id);
            ("result", result);
            ("execution_time", VFloat execution_time);
            ("agent_id", id)]) ;;
  pure result.

(** Its [except Exception as error] clause. *)
Definition execute_failed (task_id : string) (start_time : Q) (error : exn)
  : M value :=
  now ← tick time_time;
  let execution_time := elapsed_ms start_time now in
  id ← manifest_id;
  emit "task:failed"
    (VDict [("task_id", VStr task_id);
            ("error", VStr (exn_msg error));
            ("execution_time", VFloat execution_time);
            ("agent_id", id)]) ;;
  raise error.

Definition execute (input_data : value) : M value :=
  a ← get_self;
  if negb (is_running a)
  then raise (Exn RuntimeError "Agent is not running")
  else
    task_id ← tick uuid4;
    start_time ← tick time_time;
    try_except (execute_task task_id start_time input_data)
               (execute_failed task_id start_time).

Definition get_health : M AgentHealth :=
  a ← get_self; pure (health_status a).

Definition update_health (new_status : option string)
    (new_details new_metrics : option dict) : M unit :=
  (match new_status with
   | Some s =>
       a ← get_self;
       let h := health_status a in
       set_self (with_health_status a
                   {| status := s; details := details h; metrics := metrics h |})
   | None => pure tt
   end) ;;
  (match new_details with
   | Some d =>
       a ← get_self;
       let h := health_status a in
       set_self (with_health_status a
                   {| status := status h;
                      details := dict_update (details h) d;
                      metrics := metrics h |})
   | None => pure tt
   end) ;;
  (match new_metrics with
   | Some m =>
       a ← get_self;
       let h := health_status a in
       set_self (with_health_status a
                   {| status := status h;
                      details := details h;
                      metrics := dict_update (metrics h) m |})
   | None => pure tt
   end) ;;
  a ← get_self;
  emit "health:updated" (asdict_health (health_status a)).

Definition on_event (event_type : string) (h : handler) : M unit :=
  a ← get_self;
  let registered := default [] (_event_handlers a !! event_type) in
  set_self (with_event_handlers a
              (<[event_type := registered ++ [h]]> (_event_handlers a))).

End Lifecycle.

End Agent.

(* ===================================================================== *)
(** * Concrete runtimes, agents and manifests used in the examples *)
(* ===================================================================== *)

Module Sample.
Import Py Agent.

Definition is_meta (c : ascii) : bool :=
  existsb (Ascii.eqb c) (list_ascii_of_string ".^$*+?{}[]\|()").

(** [re.compile] on patterns free of metacharacters, where it yields the
    literal pattern.  The examples use no other pattern; this parser
    rejects them. *)
Definition compile_literal (p : string) : option Regex.regex :=
  if existsb is_meta (list_ascii_of_string p) then None
  else Some (Regex.literal p).

(** A runtime whose clock advances by one second per reading.  The
    examples take [str] of [None], booleans, integers and strings only,
    so [py_repr] is not exercised.  The logger is enabled from [WARNING]
    on, as it is when [logging] has not been configured. *)
Definition runtime : Runtime := {|
  py_repr := fun _ => "<repr>";
  re_compile := compile_literal;
  re_error_text := fun p => "unsupported pattern " +:+ p;
  uuid4 := fun n => "task-" +:+ pretty n;
  time_time := fun n => inject_Z (Z.of_nat n);
  now_isoformat := fun n => "2024-01-01T00:00:" +:+ pretty n;
  recursion_limit := 1000;
  isEnabledFor := fun level => (30 <=? level)%Z;
  record_attributes :=
    ["name"; "msg"; "args"; "levelname"; "levelno"; "pathname"; "filename";
     "module"; "exc_info"; "exc_text"; "stack_info"; "lineno"; "funcName";
     "created"; "msecs"; "relativeCreated"; "thread"; "threadName";
     "processName"; "process"]
|}.

(** An agent that echoes its input. *)
Definition echo : AgentHooks := {|
  on_initialize := fun _ => Ok tt;
  on_shutdown := fun _ => Ok tt;
  on_execute := fun _ input_data => Ok input_data
|}.

(** An agent whose hooks all raise. *)
Definition broken : AgentHooks := {|
  on_initialize := fun _ => Raise (Exn RuntimeError "cannot initialize");
  on_shutdown := fun _ => Raise (Exn RuntimeError "cannot shut down");
  on_execute := fun _ _ => Raise (Exn RuntimeError "cannot execute")
|}.

Definition metadata_ok : value :=
  VDict [("author", VStr "a"); ("tags", VList []); ("category", VStr "c")].

Definition manifest_with (inputs outputs : dict) : dict :=
  [("id", VStr "echo"); ("name", VStr "Echo"); ("version", VStr "1.0.0");
   ("description", VStr "echoes"); ("runtime", VStr "python");
   ("inputs", VDict inputs); ("outputs", VDict outputs);
   ("metadata", metadata_ok)].

(** No declared inputs or outputs. *)
Definition plain_manifest : dict := manifest_with [] [].

Definition agent_of (m : dict) : BaseAgent :=
  {| manifest := m; context := None; config := []; is_running := false;
     health_status := {| status := "healthy"; details := []; metrics := [] |};
     _event_handlers := ∅ |}.

Definition ctx : AgentContext :=
  {| agent_id := "echo"; session_id := "s1"; user_id := None; metadata := [] |}.

Definition fresh (m : dict) : store := {| self := agent_of m; ticks := 0 |}.

(** The same agent once [initialize] has returned. *)
Definition running (m : dict) : store :=
  {| self := with_is_running (with_context (agent_of m) (Some ctx)) true;
     ticks := 0 |}.

(** Three subscribers: one raises [ValueError], one returns, one is
    interrupted from the keyboard. *)
Definition h_bad : handler :=
  {| h_id := 1; h_call := fun _ => Raise (Exn ValueError "boom") |}.

Definition h_ok : handler := {| h_id := 2; h_call := fun _ => Ok tt |}.

Definition h_interrupt : handler :=
  {| h_id := 3; h_call := fun _ => Raise (Exn BaseOnly "KeyboardInterrupt") |}.

(** A running agent with [handlers] subscribed, in that order, to
    [event_type]. *)
Definition subscribed (event_type : string) (handlers : list handler) : store :=
  {| self :=
       with_event_handlers (self (running plain_manifest))
         {[ event_type := handlers ]};
     ticks := 0 |}.

Definition number_field (required : bool) : value :=
  VDict [("type", VStr "number"); ("required", VBool required)].

(** One declared input and one declared output, both called [amount]. *)
Definition amount_manifest (input_required output_required : bool) : dict :=
  manifest_with [("amount", number_field input_required)]
                [("amount", number_field output_required)].

(** A string field that must match the pattern [a]. *)
Definition starts_with_a : dict :=
  [("type", VStr "string");
   ("constraints", VDict [("pattern", VStr "a")])].

End Sample.

(* ===================================================================== *)
(** * Vocabulary of the statements *)
(* ===================================================================== *)

Module Observe.
Import Py Agent.

(** The events emitted, in order. *)
Definition emitted (o : list obs) : list (string * value) :=
  omap (fun x => match x with Emitted ty d => Some (ty, d) | _ => None end) o.

(** The task events among them. *)
Definition task_events (o : list obs) : list (string * value) :=
  List.filter (fun e => is_prefix "task:" (fst e)) (emitted o).

(** The handlers invoked for events of one type, in order, each with the
    data it was handed. *)
Definition deliveries (event_type : string) (o : list obs)
  : list (nat * value) :=
  omap (fun x => match x with
                 | Delivered h ty d =>
                     if String.eqb ty event_type then Some (h, d) else None
                 | _ => None
                 end) o.

(** The records handed to [logging], in order. *)
Definition log_records (o : list obs) : list (LogLevel * string) :=
  omap (fun x => match x with LogRecord l m => Some (l, m) | _ => None end) o.

(** The [level] and [message] of each [log] event emitted, in order. *)
Definition log_events (o : list obs) : list (value * value) :=
  omap (fun e =>
          if String.eqb (fst e) "log"
          then match snd e with
               | VDict d =>
                   Some (dict_get_default d "level" VNone,
                         dict_get_default d "message" VNone)
               | _ => None
               end
          else None) (emitted o).

(** The handlers of a list that raise on [data], with what they raise. *)
Definition failures (data : value) (hs : list handler) : list exn :=
  omap (fun h => match h_call h data with
                 | Raise e => Some e
                 | Ok _ => None
                 end) hs.

(** The message [_emit_event] logs for a handler that raised. *)
Definition handler_error (event_type : string) (e : exn) : string :=
  "Error in event handler for " +:+ event_type +:+ ": " +:+ exn_msg e.

(** Handler failures are contained: a handler that raises raises an
    [Exception], and is not subscribed to [log]. *)
Definition contained (a : BaseAgent) : Prop :=
  forall ty hs h data e,
    _event_handlers a !! ty = Some hs -> h ∈ hs ->
    h_call h data = Raise e -> is_Exception e = true /\ ty <> "log".

(** The trace of handing [data] to handlers that all return. *)
Definition handed (ty : string) (data : value) (hs : list handler) : list obs :=
  map (fun h => Delivered (h_id h) ty data) hs.

(** What one run of the delivery loop yields. *)
Record delivered (ty : string) (data : value) (hs : list handler)
    (st st' : store) (o : list obs) : Prop := {
  dl_self : self st' = self st;
  dl_ticks : (ticks st <= ticks st')%nat;
  dl_order : deliveries ty o = map (fun h => (h_id h, data)) hs;
  dl_records :
    log_records o
    = map (fun e => (ERROR, handler_error ty e)) (failures data hs);
  dl_events :
    log_events o
    = map (fun e => (VStr "error", VStr (handler_error ty e)))
        (failures data hs);
  dl_emitted : Forall (fun e => fst e = "log") (emitted o)
}.

(** A method that leaves the attributes of [self] as they are, whatever
    its outcome. *)
Definition keeps_self {A} (m : M A) : Prop :=
  forall st r st' o, m st = (r, st', o) -> self st' = self st.

(** The error [execute] raises on an agent that is not running. *)
Definition not_running : exn := Exn RuntimeError "Agent is not running".

(** The agent [on_initialize] is called on. *)
Definition initializing (a : BaseAgent) (ctx : AgentContext) (merged : dict)
  : BaseAgent :=
  with_is_running (with_config (with_context a (Some ctx)) merged) true.

(** What the steps of a task between the two events come to: the input
    is validated, the hook runs, its result is validated. *)
Definition task_outcome {rt : Runtime} {hooks : AgentHooks} (a : BaseAgent)
    (input_data : value) : result value :=
  (_validate_input a input_data ;;
   result ← on_execute a input_data;
   _validate_output a result ;;
   Ok result)%R.

(** The snapshot after [update_health]. *)
Definition updated_health (h : AgentHealth) (new_status : option string)
    (new_details new_metrics : option dict) : AgentHealth :=
  {| status := default (status h) new_status;
     details := dict_update (details h) (default [] new_details);
     metrics := dict_update (metrics h) (default [] new_metrics) |}.

(** The clock never steps back. *)
Definition monotone_clock {rt : Runtime} : Prop :=
  forall i j : nat, (i <= j)%nat -> (time_time i <= time_time j)%Q.

End Observe.

(* ===================================================================== *)
(** * The rest of [BaseAgent]: accessors and published events *)
(* ===================================================================== *)

Module Events.
Import Py Agent.

(** The dataclass [AgentEvent].  Its [timestamp] is a [datetime] object,
    which is no JSON-like value: it stands here as whatever value the
    parameter [datetime_now] of [publish_event] gives for it. *)
Record AgentEvent : Type := {
  type : string;
  data : value;
  timestamp : value;
  correlation_id : option string
}.

(** [dataclasses.asdict] *)
Definition asdict_event (e : AgentEvent) : value :=
  VDict [("type", VStr (type e));
         ("data", data e);
         ("timestamp", timestamp e);
         ("correlation_id",
          match correlation_id e with Some c => VStr c | None => VNone end)].

Section Accessors.
Context {rt : Runtime}.
Variable datetime_now : nat -> value.
Local Open Scope method_scope.

Definition publish_event (event_type : string) (payload : value)
    (correlation : option string) : M unit :=
  now ← tick datetime_now;
  let event := {| type := event_type; data := payload; timestamp := now;
                  correlation_id := correlation |} in
  emit "event:published" (asdict_event event).

Definition get_manifest : M dict := a ← get_self; pure (manifest a).

Definition get_context : M (option AgentContext) :=
  a ← get_self; pure (context a).

Definition get_config : M dict := a ← get_self; pure (config a).

End Accessors.

End Events.

(* ===================================================================== *)
(** * Vocabulary of the statements, continued *)
(* ===================================================================== *)

Module Describe.
Import Py Agent.

(** The five type names [_validate_value] knows, with [text] a second name
    for [string]. *)
Definition known_types : list string :=
  ["array"; "object"; "string"; "text"; "number"; "boolean"].

(** The shape a declared type asks of a value; a name that is not known
    asks nothing. *)
Definition shape_ok (t : string) (v : value) : bool :=
  if String.eqb t "array" then match v with VList _ => true | _ => false end
  else if String.eqb t "object"
  then match v with VDict _ => true | _ => false end
  else if String.eqb t "string" || String.eqb t "text"
  then match v with VStr _ => true | _ => false end
  else if String.eqb t "number" then is_number v
  else if String.eqb t "boolean"
  then match v with VBool _ => true | _ => false end
  else true.

(** The word for the type in the error message. *)
Definition kind_of (t : string) : string :=
  if String.eqb t "text" then "string" else t.

(** [P] holds of everything a method emits when run on the agent [a], and
    the method leaves [a] as it is. *)
Definition emits_only {A} (P : obs -> Prop) (a : BaseAgent) (m : M A) : Prop :=
  forall st r st' o,
    self st = a -> m st = (r, st', o) -> self st' = a /\ Forall P o.

(** What an observation may be while an event of type [ty] is published
    on the agent [a]: the emission of an event of type [ty] or [log], a
    delivery of such an event to a handler registered on [a] for its
    type, or a log record. *)
Definition concerns (a : BaseAgent) (ty : string) (x : obs) : Prop :=
  match x with
  | Emitted ty' _ => ty' = ty \/ ty' = "log"
  | Delivered h ty' _ =>
      (ty' = ty \/ ty' = "log") /\
      exists hs hd,
        _event_handlers a !! ty' = Some hs /\ hd ∈ hs /\ h_id hd = h
  | LogRecord _ _ => True
  end.

(** The events of type [ty] among those emitted. *)
Definition events_of (ty : string) (o : list obs) : list value :=
  omap (fun e => if String.eqb (fst e) ty then Some (snd e) else None)
    (Observe.emitted o).

(** The [log] entry built by [log] at tick [t]. *)
Definition log_entry {rt : Runtime} (a : BaseAgent) (t : nat)
    (level : LogLevel) (message : string) (extra : option dict) (id : value)
  : value :=
  VDict [("level", VStr (level_value level));
         ("message", VStr message);
         ("data", VDict (default [] extra));
         ("timestamp", VStr (now_isoformat t));
         ("agent_id", id);
         ("session_id",
          match context a with
          | Some c => VStr (session_id c)
          | None => VNone
          end)].

(** [s.isascii()]: every character of the string is below 128. *)
Definition isascii (s : string) : bool :=
  forallb (fun c => (nat_of_ascii c <? 128)%nat) (list_ascii_of_string s).

(** What the interpreter raises when the call stack is exhausted. *)
Definition recursion_error : exn :=
  Exn RecursionError "maximum recursion depth exceeded".

End Describe.

(* ===================================================================== *)
(** * More concrete manifests and values for the examples *)
(* ===================================================================== *)

Module MoreSamples.
Import Py Agent Sample.

(** A required number that must not be negative. *)
Definition non_negative_number : value :=
  VDict [("type", VStr "number");
         ("required", VBool true);
         ("constraints", VDict [("min", VInt 0)])].

(** One declared input, [amount], a required non-negative number. *)
Definition amount_min_manifest : dict :=
  manifest_with [("amount", non_negative_number)] [].

(** One declared output, [total]. *)
Definition total_manifest : dict :=
  manifest_with [] [("total", number_field true)].

(** A manifest with default configuration. *)
Definition configured_manifest : dict :=
  plain_manifest
  ++ [("config", VDict [("timeout", VInt 10); ("retries", VInt 3)])].

(** A manifest whose [config] is a number. *)
Definition misconfigured_manifest : dict :=
  plain_manifest ++ [("config", VInt 5)].

(** A manifest without [name] and without [runtime]. *)
Definition nameless_manifest : dict :=
  List.filter
    (fun kv => negb (String.eqb (fst kv) "name" || String.eqb (fst kv) "runtime"))
    plain_manifest.

(** A manifest whose metadata is the list of the three names, and one
    whose metadata is a number. *)
Definition listed_metadata_manifest : dict :=
  dict_set plain_manifest "metadata"
    (VList [VStr "author"; VStr "tags"; VStr "category"]).

Definition numeric_metadata_manifest : dict :=
  dict_set plain_manifest "metadata" (VInt 5).

(** A manifest whose metadata has no [tags]. *)
Definition untagged_manifest : dict :=
  dict_set plain_manifest "metadata"
    (VDict [("author", VStr "a"); ("category", VStr "c")]).

(** The value that stands for the [datetime] read at a tick. *)
Definition datetime_at (n : nat) : value :=
  VStr ("2024-01-01 00:00:" +:+ pretty n).

End MoreSamples.

(* ===================================================================== *)
(** * Facts about regular expressions *)
(* ===================================================================== *)

Module RegexFacts.
Import Regex.

Lemma append_cons (c : ascii) (s t : string) :
  String c s +:+ t = String c (s +:+ t).
Proof. reflexivity. Qed.

Lemma append_empty_l (s : string) : "" +:+ s = s.
Proof. reflexivity. Qed.

Lemma append_empty_r (s : string) : s +:+ "" = s.
Proof.
  induction s as [|c s IH]; [reflexivity | now rewrite append_cons, IH].
Qed.

Lemma append_eq_empty (s t : string) : s +:+ t = "" -> s = "" /\ t = "".
Proof. destruct s; [rewrite append_empty_l; auto | discriminate]. Qed.

Lemma matches_cat_inv (r1 r2 : regex) (s : string) :
  matches (Cat r1 r2) s ->
  exists s1 s2, s = s1 +:+ s2 /\ matches r1 s1 /\ matches r2 s2.
Proof. inversion 1; subst; eauto. Qed.

Lemma matches_alt_inv (r1 r2 : regex) (s : string) :
  matches (Alt r1 r2) s -> matches r1 s \/ matches r2 s.
Proof. inversion 1; subst; auto. Qed.

Lemma nullable_spec (r : regex) : nullable r = true <-> matches r "".
Proof.
  induction r as [| | |c|r1 IH1 r2 IH2|r1 IH1 r2 IH2|r IH]; simpl.
  - split; [discriminate | inversion 1].
  - split; [constructor | reflexivity].
  - split; [discriminate | inversion 1].
  - split; [discriminate | inversion 1].
  - rewrite andb_true_iff, IH1, IH2. split.
    + intros [M1 M2]. exact (MCat _ _ "" "" M1 M2).
    + intros Hm. apply matches_cat_inv in Hm as (s1 & s2 & E & M1 & M2).
      symmetry in E. destruct (append_eq_empty _ _ E) as [-> ->]. tauto.
  - rewrite orb_true_iff, IH1, IH2. split.
    + intros [M|M]; [now apply MAltL | now apply MAltR].
    + intros Hm. apply matches_alt_inv in Hm. tauto.
  - split; [constructor | reflexivity].
Qed.

(** A match of [Star r] on a non-empty string starts with a non-empty
    match of [r]. *)
Lemma star_cons (r : regex) (s : string) :
  matches (Star r) s ->
  forall a s', s = String a s' ->
  exists s1 s2, s' = s1 +:+ s2 /\ matches r (String a s1) /\ matches (Star r) s2.
Proof.
  intros Hm. remember (Star r) as r' eqn:Er.
  induction Hm as [| | | | | | |r0 s1 s2 M1 _ M2 IH2]; try discriminate.
  injection Er as Er. subst r0. intros a s' E.
  destruct s1 as [|b s1].
  - apply IH2; [reflexivity | exact E].
  - rewrite append_cons in E. injection E as -> <-. exists s1, s2. auto.
Qed.

Lemma deriv_spec (a : ascii) (r : regex) (s : string) :
  matches (deriv a r) s <-> matches r (String a s).
Proof.
  revert s.
  induction r as [| | |c|r1 IH1 r2 IH2|r1 IH1 r2 IH2|r IH]; intros s; simpl.
  - split; inversion 1.
  - split; inversion 1.
  - split; inversion 1; subst; constructor.
  - destruct (Ascii.eqb_spec a c) as [->|Hne].
    + split; inversion 1; subst; constructor.
    + split; inversion 1; subst; congruence.
  - assert (Hcat : matches (Cat (deriv a r1) r2) s ->
                   matches (Cat r1 r2) (String a s)).
    { intros Hm. apply matches_cat_inv in Hm as (s1 & s2 & -> & M1 & M2).
      apply IH1 in M1. exact (MCat _ _ (String a s1) s2 M1 M2). }
    assert (Hinv : matches (Cat r1 r2) (String a s) ->
                   matches (Cat (deriv a r1) r2) s \/
                   (matches r1 "" /\ matches r2 (String a s))).
    { intros Hm. apply matches_cat_inv in Hm as (s1 & s2 & E & M1 & M2).
      destruct s1 as [|b s1].
      - right. rewrite append_empty_l in E. subst. auto.
      - rewrite append_cons in E. injection E as <- ->. left.
        constructor; [now apply IH1 | assumption]. }
    destruct (nullable r1) eqn:N.
    + split.
      * intros Hm. apply matches_alt_inv in Hm as [Hm|Hm]; [auto|].
        apply nullable_spec in N. apply IH2 in Hm.
        exact (MCat _ _ "" _ N Hm).
      * intros Hm. destruct (Hinv Hm) as [?|[_ M2]];
          [now apply MAltL | apply MAltR; now apply IH2].
    + split; [exact Hcat|].
      intros Hm. destruct (Hinv Hm) as [?|[M1 _]]; [assumption|].
      apply nullable_spec in M1. congruence.
  - split; intros Hm; apply matches_alt_inv in Hm as [Hm|Hm];
      (apply MAltL; now apply IH1) || (apply MAltR; now apply IH2).
  - split.
    + intros Hm. apply matches_cat_inv in Hm as (s1 & s2 & -> & M1 & M2).
      apply IH in M1. exact (MStarS _ (String a s1) s2 M1 M2).
    + intros Hm.
      destruct (star_cons _ _ Hm a s eq_refl) as (s1 & s2 & -> & M1 & M2).
      constructor; [now apply IH | assumption].
Qed.

Lemma fullmatch_spec (r : regex) (s : string) :
  fullmatch r s = true <-> matches r s.
Proof.
  revert r. induction s as [|a s IH]; intros r; simpl.
  - apply nullable_spec.
  - rewrite IH. apply deriv_spec.
Qed.

(** [re.match]: some prefix of the string is matched in full. *)
Lemma match_spec (r : regex) (s : string) :
  match_ r s = true <-> exists p t, s = p +:+ t /\ matches r p.
Proof.
  revert r. induction s as [|a s IH]; intros r; simpl.
  - rewrite orb_false_r, nullable_spec. split.
    + intros Hm. exists "", "". auto.
    + intros (p & t & E & Hm). destruct p; [assumption | discriminate].
  - rewrite orb_true_iff, nullable_spec, IH. split.
    + intros [Hm | (p & t & -> & Hm)].
      * exists "", (String a s). auto.
      * exists (String a p), t. split; [reflexivity | now apply deriv_spec].
    + intros (p & t & E & Hm). destruct p as [|b p].
      * left. assumption.
      * rewrite append_cons in E. injection E as <- ->. right. exists p, t.
        split; [reflexivity | now apply deriv_spec].
Qed.

Lemma fullmatch_match (r : regex) (s : string) :
  fullmatch r s = true -> match_ r s = true.
Proof.
  rewrite fullmatch_spec, match_spec. intros Hm.
  exists s, "". now rewrite append_empty_r.
Qed.

End RegexFacts.

(* ===================================================================== *)
(** * Facts about the agent *)
(* ===================================================================== *)

Import Py Agent Observe.

(** ** Methods that do not assign to [self] *)

Section Frame.
Context {rt : Runtime} {hooks : AgentHooks}.

Lemma keeps_pure {A} (a : A) : keeps_self (pure a).
Proof. intros st r st' o [= _ <- _]. reflexivity. Qed.

Lemma keeps_raise {A} (e : exn) : keeps_self (@raise A e).
Proof. intros st r st' o [= _ <- _]. reflexivity. Qed.

Lemma keeps_lift {A} (x : result A) : keeps_self (lift x).
Proof. intros st r st' o [= _ <- _]. reflexivity. Qed.

Lemma keeps_tell (x : obs) : keeps_self (tell x).
Proof. intros st r st' o [= _ <- _]. reflexivity. Qed.

Lemma keeps_get_self : keeps_self get_self.
Proof. intros st r st' o [= _ <- _]. reflexivity. Qed.

Lemma keeps_tick {A} (f : nat -> A) : keeps_self (tick f).
Proof. intros st r st' o [= _ <- _]. reflexivity. Qed.

Lemma keeps_bind {A B} (m : M A) (k : A -> M B) :
  keeps_self m -> (forall a, keeps_self (k a)) -> keeps_self (bind m k).
Proof.
  intros Hm Hk st r st' o. unfold bind.
  destruct (m st) as [[[a|e] st1] o1] eqn:E1.
  - destruct (k a st1) as [[r2 st2] o2] eqn:E2. cbn. intros [= _ <- _].
    rewrite (Hk _ _ _ _ _ E2). exact (Hm _ _ _ _ E1).
  - intros [= _ <- _]. exact (Hm _ _ _ _ E1).
Qed.

Lemma keeps_for_each {A} (xs : list A) (body : A -> M unit) :
  (forall x, keeps_self (body x)) -> keeps_self (for_each xs body).
Proof.
  intros Hb. induction xs as [|x xs IH]; simpl.
  - apply keeps_pure.
  - apply keeps_bind; [apply Hb | intros _; exact IH].
Qed.

Lemma keeps_manifest_id : keeps_self manifest_id.
Proof.
  apply keeps_bind; [apply keeps_get_self | intros a; apply keeps_lift].
Qed.

Lemma keeps_log_with emit level message data :
  (forall ty d, keeps_self (emit ty d)) ->
  keeps_self (log_with emit level message data).
Proof.
  intros He. unfold log_with.
  apply keeps_bind; [apply keeps_tick | intros ts].
  apply keeps_bind; [apply keeps_manifest_id | intros id].
  apply keeps_bind; [apply keeps_get_self | intros a].
  apply keeps_bind; [apply keeps_lift | intros _].
  apply keeps_bind; [apply keeps_tell | intros _; apply He].
Qed.

Lemma keeps_emit_event depth ty data : keeps_self (_emit_event depth ty data).
Proof.
  revert ty data. induction depth as [|d IH]; intros ty data; simpl.
  - apply keeps_bind; [apply keeps_tell | intros _; apply keeps_raise].
  - apply keeps_bind; [apply keeps_tell | intros _].
    apply keeps_bind; [apply keeps_get_self | intros a].
    destruct (_event_handlers a !! ty) as [hs|]; [|apply keeps_pure].
    apply keeps_for_each. intros h.
    apply keeps_bind; [apply keeps_tell | intros _].
    destruct (h_call h data) as [u|e]; [apply keeps_pure|].
    destruct (is_Exception e); [|apply keeps_raise].
    apply keeps_log_with. exact IH.
Qed.

Lemma keeps_emit ty data : keeps_self (emit ty data).
Proof. apply keeps_emit_event. Qed.

End Frame.

(** ** Running a method step by step *)

Section Run.
Context {A B : Type}.
Implicit Types (k : A -> M B) (st : store).

Lemma prepend_nil (x : result B * store * list obs) : prepend [] x = x.
Proof. destruct x as [[r st] o]. reflexivity. Qed.

Lemma prepend_prepend (o1 o2 : list obs) (x : result B * store * list obs) :
  prepend o1 (prepend o2 x) = prepend (o1 ++ o2) x.
Proof. destruct x as [[r st] o]. cbn. now rewrite app_assoc. Qed.

Lemma run_pure (a : A) k st : bind (pure a) k st = k a st.
Proof. unfold bind, pure. apply prepend_nil. Qed.

Lemma run_raise (e : exn) k st : bind (raise e) k st = (Raise e, st, []).
Proof. reflexivity. Qed.

Lemma run_lift_ok (a : A) k st : bind (lift (Ok a)) k st = k a st.
Proof. unfold bind, lift. apply prepend_nil. Qed.

Lemma run_lift_raise (e : exn) k st :
  bind (lift (Raise e)) k st = (Raise e, st, []).
Proof. reflexivity. Qed.

Lemma run_tick (source : nat -> A) k st :
  bind (tick source) k st
  = k (source (ticks st)) {| self := self st; ticks := S (ticks st) |}.
Proof. unfold bind, tick. apply prepend_nil. Qed.

Lemma run_step (m : M A) k st a st' o :
  m st = (Ok a, st', o) -> bind m k st = prepend o (k a st').
Proof. intros E. unfold bind. now rewrite E. Qed.

Lemma run_fail (m : M A) k st e st' o :
  m st = (Raise e, st', o) -> bind m k st = (Raise e, st', o).
Proof. intros E. unfold bind. now rewrite E. Qed.

End Run.

Section RunUnit.
Context {B : Type}.
Implicit Types (st : store).

Lemma run_get_self (k : BaseAgent -> M B) st :
  bind get_self k st = k (self st) st.
Proof. unfold bind, get_self. apply prepend_nil. Qed.

Lemma run_set_self (a : BaseAgent) (k : unit -> M B) st :
  bind (set_self a) k st = k tt {| self := a; ticks := ticks st |}.
Proof. unfold bind, set_self. apply prepend_nil. Qed.

Lemma run_tell (x : obs) (k : unit -> M B) st :
  bind (tell x) k st = prepend [x] (k tt st).
Proof. reflexivity. Qed.

End RunUnit.

Section RunId.
Context {rt : Runtime} {hooks : AgentHooks} {B : Type}.

Lemma run_manifest_id (k : value -> M B) (st : store) (id : value) :
  dict_get (manifest (self st)) "id" = Some id ->
  bind manifest_id k st = k id st.
Proof.
  intros Hid. apply eq_trans with (prepend [] (k id st)); [|apply prepend_nil].
  apply run_step. unfold manifest_id. rewrite run_get_self.
  unfold lift. cbn. now rewrite Hid.
Qed.

(** Without [extra] the logger has nothing to refuse. *)
Lemma logger_call_nil (level : LogLevel) : logger_call level [] = Ok tt.
Proof. unfold logger_call. now destruct (isEnabledFor _). Qed.

Lemma run_logger_nil (level : LogLevel) (k : unit -> M B) (st : store) :
  bind (lift (logger_call level [])) k st = k tt st.
Proof. rewrite logger_call_nil. apply run_lift_ok. Qed.

End RunId.

(** ** What [_emit_event] does when handler failures are contained *)

Section Emit.
Context {rt : Runtime} {hooks : AgentHooks}.

Lemma deliveries_app ty (o1 o2 : list obs) :
  deliveries ty (o1 ++ o2) = deliveries ty o1 ++ deliveries ty o2.
Proof. apply omap_app. Qed.

Lemma emitted_app (o1 o2 : list obs) :
  emitted (o1 ++ o2) = emitted o1 ++ emitted o2.
Proof. apply omap_app. Qed.

Lemma log_records_app (o1 o2 : list obs) :
  log_records (o1 ++ o2) = log_records o1 ++ log_records o2.
Proof. apply omap_app. Qed.

Lemma log_events_app (o1 o2 : list obs) :
  log_events (o1 ++ o2) = log_events o1 ++ log_events o2.
Proof. unfold log_events. rewrite emitted_app. apply omap_app. Qed.

Lemma task_events_app (o1 o2 : list obs) :
  task_events (o1 ++ o2) = task_events o1 ++ task_events o2.
Proof. unfold task_events. rewrite emitted_app. apply List.filter_app. Qed.

Lemma handed_deliveries ty data hs :
  deliveries ty (handed ty data hs) = map (fun h => (h_id h, data)) hs.
Proof.
  induction hs as [|h hs IH]; [reflexivity|]. cbn.
  rewrite String.eqb_refl. cbn. f_equal. exact IH.
Qed.

Lemma handed_other ty ty' data hs :
  ty' <> ty -> deliveries ty (handed ty' data hs) = [].
Proof.
  intros Hne. induction hs as [|h hs IH]; [reflexivity|]. cbn.
  destruct (String.eqb_spec ty' ty); [contradiction | exact IH].
Qed.

Lemma handed_emitted ty data hs : emitted (handed ty data hs) = [].
Proof. induction hs as [|h hs IH]; [reflexivity | exact IH]. Qed.

Lemma handed_log_records ty data hs : log_records (handed ty data hs) = [].
Proof. induction hs as [|h hs IH]; [reflexivity | exact IH]. Qed.

Lemma emit_event_unfold depth ty data :
  _emit_event (S depth) ty data
  = bind (tell (Emitted ty data)) (fun _ =>
      bind get_self (fun a =>
        match _event_handlers a !! ty with
        | None => pure tt
        | Some handlers =>
            for_each handlers (fun h =>
              bind (tell (Delivered (h_id h) ty data)) (fun _ =>
                match h_call h data with
                | Ok _ => pure tt
                | Raise e =>
                    if is_Exception e
                    then log_with (_emit_event depth) ERROR
                           ("Error in event handler for " +:+ ty +:+ ": "
                            +:+ exn_msg e) None
                    else raise e
                end))
        end)).
Proof. reflexivity. Qed.

(** Handlers that return are handed the event one after the other. *)
Lemma for_each_quiet (hs : list handler) ty data
    (recover : exn -> M unit) (st : store) :
  (forall h, h ∈ hs -> exists u, h_call h data = Ok u) ->
  for_each hs (fun h =>
    bind (tell (Delivered (h_id h) ty data)) (fun _ =>
      match h_call h data with
      | Ok _ => pure tt
      | Raise e => recover e
      end)) st
  = (Ok tt, st, handed ty data hs).
Proof.
  induction hs as [|h hs IH]; intros Hq; [reflexivity|].
  cbn [for_each]. destruct (Hq h) as [u Hu]; [left|].
  erewrite run_step; cycle 1.
  { rewrite run_tell, Hu. reflexivity. }
  rewrite IH; [reflexivity|]. intros h' Hin. apply Hq. now right.
Qed.

Lemma emit_log_quiet depth entry (st : store) :
  (forall hs h data, _event_handlers (self st) !! "log" = Some hs ->
     h ∈ hs -> exists u, h_call h data = Ok u) ->
  _emit_event (S depth) "log" entry st
  = (Ok tt, st,
     Emitted "log" entry
     :: handed "log" entry (default [] (_event_handlers (self st) !! "log"))).
Proof.
  intros Hq. rewrite emit_event_unfold, run_tell, run_get_self.
  destruct (_event_handlers (self st) !! "log") as [hs|] eqn:E; cbn.
  - rewrite for_each_quiet; [reflexivity|]. intros h Hin. now apply (Hq hs).
  - reflexivity.
Qed.

Lemma contained_log_quiet (a : BaseAgent) :
  contained a ->
  forall hs h data, _event_handlers a !! "log" = Some hs ->
    h ∈ hs -> exists u, h_call h data = Ok u.
Proof.
  intros Hc hs h data E Hin. destruct (h_call h data) as [u|e] eqn:Eh; [eauto|].
  destruct (Hc _ _ _ _ _ E Hin Eh) as [_ Hne]. contradiction.
Qed.

Lemma deliver_spec depth ty data (hs : list handler) (a : BaseAgent) id :
  contained a ->
  dict_get (manifest a) "id" = Some id ->
  (forall h, h ∈ hs ->
     exists reg, _event_handlers a !! ty = Some reg /\ h ∈ reg) ->
  forall st, self st = a ->
  exists st' o,
    for_each hs (fun h =>
      bind (tell (Delivered (h_id h) ty data)) (fun _ =>
        match h_call h data with
        | Ok _ => pure tt
        | Raise e =>
            if is_Exception e
            then log_with (_emit_event (S depth)) ERROR
                   ("Error in event handler for " +:+ ty +:+ ": "
                    +:+ exn_msg e) None
            else raise e
        end)) st
    = (Ok tt, st', o) /\ delivered ty data hs st st' o.
Proof.
  intros Hc Hid. induction hs as [|h hs IH]; intros Hreg st Hst.
  - exists st, []. split; [reflexivity|]. split; try reflexivity; constructor.
  - subst a. cbn [for_each].
    assert (Hreg' : forall h', h' ∈ hs ->
              exists reg, _event_handlers (self st) !! ty = Some reg /\ h' ∈ reg).
    { intros h' Hin. apply Hreg. now right. }
    destruct (h_call h data) as [u|e] eqn:Eh.
    + destruct (IH Hreg' st eq_refl) as (st' & o & E & D).
      exists st', (Delivered (h_id h) ty data :: o). split.
      * erewrite run_step; cycle 1.
        { rewrite run_tell. reflexivity. }
        rewrite E. reflexivity.
      * destruct D. split; try assumption.
        -- cbn. rewrite String.eqb_refl. cbn. now f_equal.
        -- unfold failures in *. cbn. now rewrite Eh.
        -- unfold failures in *. cbn. now rewrite Eh.
    + destruct (Hreg h) as (reg & Er & Hin); [left|].
      destruct (Hc _ _ _ _ _ Er Hin Eh) as [Hex Hne].
      set (st1 := {| self := self st; ticks := S (ticks st) |}).
      destruct (IH Hreg' st1 eq_refl) as (st' & o & E & D).
      set (entry := VDict [("level", VStr "error");
                           ("message", VStr (handler_error ty e));
                           ("data", VDict []);
                           ("timestamp", VStr (now_isoformat (ticks st)));
                           ("agent_id", id);
                           ("session_id",
                            match context (self st) with
                            | Some c => VStr (session_id c)
                            | None => VNone
                            end)]).
      set (lhs := default [] (_event_handlers (self st) !! "log")).
      exists st', (Delivered (h_id h) ty data
                   :: (LogRecord ERROR (handler_error ty e)
                       :: Emitted "log" entry :: handed "log" entry lhs) ++ o).
      split.
      * erewrite run_step; cycle 1.
        { rewrite run_tell, Hex. unfold log_with.
          rewrite run_tick, (run_manifest_id _ _ id) by exact Hid.
          rewrite run_get_self. cbn [default].
          rewrite run_logger_nil, run_tell. cbn [default self].
          rewrite emit_log_quiet by now apply contained_log_quiet.
          reflexivity. }
        fold st1. rewrite E. reflexivity.
      * destruct D as [D1 D2 D3 D4 D5 D6]. split.
        -- exact D1.
        -- cbn in D2. lia.
        -- change (Delivered (h_id h) ty data :: ?l)
             with ([Delivered (h_id h) ty data] ++ l).
           rewrite !deliveries_app, D3. cbn -[handed].
           fold (deliveries ty (handed "log" entry lhs)).
           rewrite String.eqb_refl, handed_other by auto. reflexivity.
        -- change (log_records (?x :: (?y :: ?z :: ?l) ++ ?o))
             with ((ERROR, handler_error ty e) :: log_records (l ++ o)).
           rewrite log_records_app, handed_log_records, D4.
           unfold failures. cbn. now rewrite Eh.
        -- assert (Em : emitted (Delivered (h_id h) ty data
                      :: (LogRecord ERROR (handler_error ty e)
                          :: Emitted "log" entry :: handed "log" entry lhs) ++ o)
                   = ("log", entry) :: emitted o).
           { change (emitted (?x :: (?y :: ?z :: ?l) ++ ?o))
               with (("log", entry) :: emitted (l ++ o)).
             now rewrite emitted_app, handed_emitted. }
           unfold log_events in *. rewrite Em. cbn. rewrite D5.
           unfold failures. cbn. now rewrite Eh.
        -- change (emitted (?x :: (?y :: ?z :: ?l) ++ ?o))
             with (("log", entry) :: emitted (l ++ o)).
           rewrite emitted_app, handed_emitted.
           constructor; [reflexivity | exact D6].
Qed.

(** With two frames of room, [_emit_event] returns, hands the event to
    every handler registered for its type in the order of the list, and
    logs each failure. *)
Lemma emit_event_spec depth ty data (st : store) id :
  contained (self st) ->
  dict_get (manifest (self st)) "id" = Some id ->
  exists st' o,
    _emit_event (S (S depth)) ty data st = (Ok tt, st', Emitted ty data :: o) /\
    delivered ty data (default [] (_event_handlers (self st) !! ty)) st st' o.
Proof.
  intros Hc Hid. rewrite emit_event_unfold, run_tell, run_get_self.
  destruct (_event_handlers (self st) !! ty) as [hs|] eqn:E; cbn [default].
  - destruct (deliver_spec depth ty data hs (self st) id Hc Hid) with (st := st)
      as (st' & o & Ef & D); [eauto | reflexivity |].
    exists st', o. split; [|exact D]. rewrite Ef. reflexivity.
  - exists st, []. split; [reflexivity|].
    split; try reflexivity; constructor.
Qed.

Lemma emit_spec ty data (st : store) id :
  (2 <= recursion_limit)%nat ->
  contained (self st) ->
  dict_get (manifest (self st)) "id" = Some id ->
  exists st' o,
    emit ty data st = (Ok tt, st', Emitted ty data :: o) /\
    delivered ty data (default [] (_event_handlers (self st) !! ty)) st st' o.
Proof.
  intros Hl. unfold emit.
  destruct recursion_limit as [|[|d]]; [lia | lia |]. apply emit_event_spec.
Qed.

End Emit.

(** ** The running flag *)

Ltac keeps :=
  repeat first
    [ apply keeps_get_self | apply keeps_lift | apply keeps_manifest_id
    | apply keeps_emit | apply keeps_pure | apply keeps_raise
    | apply keeps_tell | apply keeps_tick
    | apply keeps_bind; [|intros ?] ].

(** The rest of a method keeps [self]: so does the store it ends in. *)
Ltac frame_rest Hs :=
  match type of Hs with
  | ?m ?st = _ =>
      let K := fresh "K" in
      assert (K : keeps_self m) by keeps;
      rewrite (K _ _ _ _ Hs)
  end.

Section Running.
Context {rt : Runtime} {hooks : AgentHooks}.

Lemma execute_not_running (input_data : value) (st : store) :
  is_running (self st) = false ->
  execute input_data st = (Raise not_running, st, []).
Proof.
  intros Hr. unfold execute. rewrite run_get_self, Hr. reflexivity.
Qed.

Lemma shutdown_clears (st : store) r st' o :
  shutdown st = (r, st', o) -> is_running (self st') = false.
Proof.
  unfold shutdown. rewrite run_get_self, run_set_self. intros Hs.
  frame_rest Hs. reflexivity.
Qed.

Lemma init_not_running (m : dict) (a : BaseAgent) :
  __init__ m = Ok a -> is_running a = false.
Proof.
  unfold __init__, rbind. destruct (_validate_manifest _); [|discriminate].
  intros [= <-]. reflexivity.
Qed.

Lemma initialize_sets (ctx : AgentContext) cfg (st : store) st' o :
  initialize ctx cfg st = (Ok tt, st', o) -> is_running (self st') = true.
Proof.
  unfold initialize.
  rewrite run_get_self, run_set_self, run_get_self. cbn [self].
  destruct (merged_config _ _) as [merged|e].
  - rewrite run_lift_ok, run_set_self, run_get_self, run_set_self.
    intros Hs. frame_rest Hs. reflexivity.
  - rewrite run_lift_raise. discriminate.
Qed.

Lemma initialize_hook_failure (ctx : AgentContext) cfg (st : store) merged e :
  merged_config (self st) (default [] cfg) = Ok merged ->
  on_initialize (initializing (self st) ctx merged) = Raise e ->
  initialize ctx cfg st
  = (Raise e,
     {| self := initializing (self st) ctx merged; ticks := ticks st |}, []).
Proof.
  intros Hm He. unfold initialize.
  rewrite run_get_self, run_set_self, run_get_self. cbn [self].
  change (merged_config (with_context (self st) (Some ctx)))
    with (merged_config (self st)).
  rewrite Hm, run_lift_ok, run_set_self, run_get_self, run_set_self.
  rewrite run_get_self. cbn [self]. fold (initializing (self st) ctx merged).
  rewrite He. apply run_lift_raise.
Qed.

(** Whatever the handlers do, the first thing [_emit_event] does is
    emit. *)
Lemma emit_event_head depth ty data (st : store) :
  exists r st' o, _emit_event depth ty data st = (r, st', Emitted ty data :: o).
Proof.
  destruct depth as [|d].
  - cbn [_emit_event]. rewrite run_tell. unfold raise, prepend. eauto.
  - rewrite emit_event_unfold, run_tell.
    destruct (bind get_self _ st) as [[r st'] o]. cbn. eauto.
Qed.

Lemma execute_task_head task_id start_time input_data (st : store) id :
  dict_get (manifest (self st)) "id" = Some id ->
  exists r st' o,
    execute_task task_id start_time input_data st
    = (r, st',
       Emitted "task:started"
         (VDict [("task_id", VStr task_id); ("input", input_data);
                 ("agent_id", id)]) :: o).
Proof.
  intros Hid. unfold execute_task. rewrite (run_manifest_id _ _ id) by exact Hid.
  set (data := VDict _). unfold bind at 1.
  destruct (emit_event_head recursion_limit "task:started" data st)
    as (r & st' & o & E).
  unfold emit. rewrite E. destruct r as [[]|e]; [|eauto].
  match goal with |- context [prepend _ ?x] => destruct x as [[r2 st2] o2] end.
  cbn. eauto.
Qed.

(** On a running agent [execute] gets past the check and starts a task. *)
Lemma execute_running_starts (input_data : value) (st : store) id :
  is_running (self st) = true ->
  dict_get (manifest (self st)) "id" = Some id ->
  exists r st' o,
    execute input_data st
    = (r, st',
       Emitted "task:started"
         (VDict [("task_id", VStr (uuid4 (ticks st)));
                 ("input", input_data); ("agent_id", id)]) :: o).
Proof.
  intros Hr Hid. unfold execute.
  rewrite run_get_self, Hr. cbn [negb]. rewrite !run_tick. cbn [self ticks].
  set (st0 := {| self := self st; ticks := S (S (ticks st)) |}).
  destruct (execute_task_head (uuid4 (ticks st)) (time_time (S (ticks st)))
              input_data st0 id Hid) as (r & st' & o & E).
  unfold try_except. rewrite E. destruct r as [v|e]; [eauto|].
  destruct (is_Exception e); [|eauto].
  destruct (execute_failed _ _ e st') as [[r2 st2] o2]. cbn. eauto.
Qed.

(** C1 (amended).  After [initialize] returns the agent is running, and
    after [shutdown] is called it is not running, whatever the outcome of
    the call.  When the [on_initialize] hook raises, [initialize] raises
    the same exception, emits nothing, and leaves the agent running: the
    flag is set before the hook is called and is not reset, so [execute]
    is not rejected afterwards and starts a task. *)
Theorem running_flag (ctx : AgentContext) (cfg : option dict) (st : store) :
  (forall st' o,
     initialize ctx cfg st = (Ok tt, st', o) -> is_running (self st') = true) /\
  (forall r st' o,
     shutdown st = (r, st', o) -> is_running (self st') = false) /\
  (forall merged e id,
     merged_config (self st) (default [] cfg) = Ok merged ->
     on_initialize (initializing (self st) ctx merged) = Raise e ->
     dict_get (manifest (self st)) "id" = Some id ->
     let st' :=
       {| self := initializing (self st) ctx merged; ticks := ticks st |} in
     initialize ctx cfg st = (Raise e, st', []) /\
     is_running (self st') = true /\
     forall input_data, exists r st'' o,
       execute input_data st'
       = (r, st'',
          Emitted "task:started"
            (VDict [("task_id", VStr (uuid4 (ticks st')));
                    ("input", input_data); ("agent_id", id)]) :: o)).
Proof.
  split; [|split].
  - intros st' o. apply initialize_sets.
  - intros r st' o. apply shutdown_clears.
  - intros merged e id Hm He Hid st'. split; [|split].
    + now apply initialize_hook_failure.
    + reflexivity.
    + intros input_data. now apply execute_running_starts.
Qed.

(** C5.  On an agent that is not running, [execute] raises the
    not-running error for every input, changes nothing and emits nothing
    (so no [task:started], [task:completed] or [task:failed]).  This is
    the case of an agent just constructed, and of an agent after any call
    of [shutdown]. *)
Theorem execute_requires_running (input_data : value) :
  (forall st, is_running (self st) = false ->
     execute input_data st = (Raise not_running, st, [])) /\
  (forall m a t, __init__ m = Ok a ->
     execute input_data {| self := a; ticks := t |}
     = (Raise not_running, {| self := a; ticks := t |}, [])) /\
  (forall st r st' o, shutdown st = (r, st', o) ->
     execute input_data st' = (Raise not_running, st', [])).
Proof.
  split; [|split].
  - intros st. apply execute_not_running.
  - intros m a t Hi. apply execute_not_running. cbn.
    exact (init_not_running _ _ Hi).
  - intros st r st' o Hs. apply execute_not_running.
    exact (shutdown_clears _ _ _ _ Hs).
Qed.

(** C10.  [shutdown] clears the running flag before it calls the
    [on_shutdown] hook: when the hook raises, [shutdown] raises the same
    exception, the agent is not running afterwards, nothing was emitted
    (no [agent:shutdown]), and every later [execute] fails with the
    not-running error. *)
Theorem shutdown_hook_failure (st : store) (e : exn) :
  on_shutdown (with_is_running (self st) false) = Raise e ->
  let st' := {| self := with_is_running (self st) false; ticks := ticks st |} in
  shutdown st = (Raise e, st', []) /\
  is_running (self st') = false /\
  forall input_data, execute input_data st' = (Raise not_running, st', []).
Proof.
  intros He st'. split; [|split].
  - unfold shutdown. rewrite run_get_self, run_set_self, run_get_self.
    cbn [self]. rewrite He. apply run_lift_raise.
  - reflexivity.
  - intros input_data. apply execute_not_running. reflexivity.
Qed.

End Running.

(** ** The events of one task *)

Section Task.
Context {rt : Runtime} {hooks : AgentHooks}.

Lemma task_events_log (o : list obs) :
  Forall (fun e => fst e = "log") (emitted o) -> task_events o = [].
Proof.
  unfold task_events. induction 1 as [|[ty d] es Hty _ IH]; [reflexivity|].
  cbn in Hty. subst ty. exact IH.
Qed.

Lemma task_events_emit ty data (o : list obs) :
  Forall (fun e => fst e = "log") (emitted o) ->
  is_prefix "task:" ty = true ->
  task_events (Emitted ty data :: o) = [(ty, data)].
Proof.
  intros Ho Hty. change (Emitted ty data :: o) with ([Emitted ty data] ++ o).
  rewrite task_events_app, (task_events_log o Ho).
  change (task_events [Emitted ty data])
    with (if is_prefix "task:" ty then [(ty, data)] else []).
  now rewrite Hty.
Qed.

(** The [except] clause reports the failure once and raises it again. *)
Lemma execute_failed_spec task_id start_time error (st : store) id :
  (2 <= recursion_limit)%nat ->
  contained (self st) ->
  dict_get (manifest (self st)) "id" = Some id ->
  exists st' o,
    execute_failed task_id start_time error st = (Raise error, st', o) /\
    self st' = self st /\
    task_events o
    = [("task:failed",
        VDict [("task_id", VStr task_id);
               ("error", VStr (exn_msg error));
               ("execution_time",
                VFloat (elapsed_ms start_time (time_time (ticks st))));
               ("agent_id", id)])].
Proof.
  intros Hl Hc Hid. unfold execute_failed.
  rewrite run_tick, (run_manifest_id _ _ id) by exact Hid.
  set (st1 := {| self := self st; ticks := S (ticks st) |}).
  set (data := VDict _).
  destruct (emit_spec "task:failed" data st1 id Hl Hc Hid)
    as (st' & o & E & D).
  exists st', (Emitted "task:failed" data :: o). split; [|split].
  - rewrite (run_step _ _ _ _ _ _ E). unfold raise, prepend.
    now rewrite app_nil_r.
  - exact (dl_self _ _ _ _ _ _ D).
  - apply task_events_emit; [exact (dl_emitted _ _ _ _ _ _ D) | reflexivity].
Qed.

(** The [try] block: [task:started], the task, and on success
    [task:completed]. *)
Lemma execute_task_spec task_id start_time input_data (st : store) id :
  (2 <= recursion_limit)%nat ->
  contained (self st) ->
  dict_get (manifest (self st)) "id" = Some id ->
  exists st1 st' o,
    execute_task task_id start_time input_data st
    = (task_outcome (self st) input_data, st', o) /\
    self st1 = self st /\ (ticks st <= ticks st1)%nat /\
    self st' = self st /\
    match task_outcome (self st) input_data with
    | Ok result =>
        task_events o
        = [("task:started",
            VDict [("task_id", VStr task_id); ("input", input_data);
                   ("agent_id", id)]);
           ("task:completed",
            VDict [("task_id", VStr task_id); ("result", result);
                   ("execution_time",
                    VFloat (elapsed_ms start_time (time_time (ticks st1))));
                   ("agent_id", id)])]
    | Raise _ =>
        st' = st1 /\
        task_events o
        = [("task:started",
            VDict [("task_id", VStr task_id); ("input", input_data);
                   ("agent_id", id)])]
    end.
Proof.
  intros Hl Hc Hid. unfold execute_task, task_outcome.
  rewrite (run_manifest_id _ _ id) by exact Hid.
  set (started := VDict _).
  destruct (emit_spec "task:started" started st id Hl Hc Hid)
    as (st1 & o1 & E1 & D1).
  pose proof (dl_self _ _ _ _ _ _ D1) as S1.
  pose proof (task_events_emit "task:started" started o1
                (dl_emitted _ _ _ _ _ _ D1) eq_refl) as T1.
  rewrite (run_step _ _ _ _ _ _ E1), run_get_self, S1.
  exists st1.
  destruct (_validate_input (self st) input_data) as [[]|e] eqn:Ei; cbn [rbind].
  2:{ rewrite run_lift_raise. cbn. do 2 eexists.
      split; [reflexivity|]. rewrite app_nil_r.
      repeat split; try assumption. exact (dl_ticks _ _ _ _ _ _ D1). }
  rewrite run_lift_ok, run_get_self, S1.
  destruct (on_execute (self st) input_data) as [result|e] eqn:Eh; cbn [rbind].
  2:{ rewrite run_lift_raise. cbn. do 2 eexists.
      split; [reflexivity|]. rewrite app_nil_r.
      repeat split; try assumption. exact (dl_ticks _ _ _ _ _ _ D1). }
  rewrite run_lift_ok, run_get_self, S1.
  destruct (_validate_output (self st) result) as [[]|e] eqn:Eo; cbn [rbind].
  2:{ rewrite run_lift_raise. cbn. do 2 eexists.
      split; [reflexivity|]. rewrite app_nil_r.
      repeat split; try assumption. exact (dl_ticks _ _ _ _ _ _ D1). }
  rewrite run_lift_ok, run_tick.
  set (st2 := {| self := self st1; ticks := S (ticks st1) |}).
  assert (Hid2 : dict_get (manifest (self st2)) "id" = Some id)
    by (cbn; now rewrite S1).
  assert (Hc2 : contained (self st2)) by (cbn; now rewrite S1).
  rewrite (run_manifest_id _ _ id) by exact Hid2.
  set (completed := VDict _).
  destruct (emit_spec "task:completed" completed st2 id Hl Hc2 Hid2)
    as (st3 & o3 & E3 & D3).
  rewrite (run_step _ _ _ _ _ _ E3). unfold pure. cbn [prepend].
  do 2 eexists. split; [reflexivity|].
  repeat split; try assumption.
  - exact (dl_ticks _ _ _ _ _ _ D1).
  - rewrite (dl_self _ _ _ _ _ _ D3). exact S1.
  - rewrite app_nil_r, task_events_app, T1.
    rewrite (task_events_emit "task:completed" completed o3
               (dl_emitted _ _ _ _ _ _ D3) eq_refl).
    reflexivity.
Qed.

Lemma elapsed_ms_nonneg (t0 t1 : Q) :
  (t0 <= t1)%Q -> (0 <= elapsed_ms t0 t1)%Q.
Proof.
  intros Hle. unfold elapsed_ms. apply Qmult_le_0_compat; [|discriminate].
  unfold Qminus. now apply -> Qle_minus_iff.
Qed.

(** C2 (amended).  On a running agent whose handler failures are
    contained, a call of [execute] ends as the task does ([task_outcome])
    and emits exactly one [task:started] event followed, when the task
    returns or raises an [Exception], by exactly one terminal event:
    [task:completed] on success, [task:failed] on failure.  The terminal
    event carries a field named [execution_time] (not
    [execution_time_ms]): the second reading of the clock minus the first,
    times 1000; it is non-negative when the clock does not step back.  A
    task that ends in an exception outside [Exception] has no terminal
    event.  The first reading of the clock is the one at tick
    [S (ticks st)], after the task id was drawn at tick [ticks st]; the
    second is a later one, at tick [now]. *)
Theorem execute_task_events (input_data : value) (st : store) (id : value) :
  (2 <= recursion_limit)%nat ->
  contained (self st) ->
  dict_get (manifest (self st)) "id" = Some id ->
  is_running (self st) = true ->
  exists st' o now,
    let task_id := VStr (uuid4 (ticks st)) in
    let execution_time :=
      ((time_time now - time_time (S (ticks st))) * 1000)%Q in
    execute input_data st = (task_outcome (self st) input_data, st', o) /\
    (S (ticks st) < now)%nat /\
    task_events o
    = ("task:started",
       VDict [("task_id", task_id); ("input", input_data); ("agent_id", id)])
      :: match task_outcome (self st) input_data with
         | Ok result =>
             [("task:completed",
               VDict [("task_id", task_id);
                      ("result", result);
                      ("execution_time", VFloat execution_time);
                      ("agent_id", id)])]
         | Raise e =>
             if is_Exception e
             then [("task:failed",
                    VDict [("task_id", task_id);
                           ("error", VStr (exn_msg e));
                           ("execution_time", VFloat execution_time);
                           ("agent_id", id)])]
             else []
         end /\
    (monotone_clock -> (0 <= execution_time)%Q).
Proof.
  intros Hl Hc Hid Hr. unfold execute.
  rewrite run_get_self, Hr. cbn [negb]. rewrite !run_tick. cbn [self ticks].
  set (st0 := {| self := self st; ticks := S (S (ticks st)) |}).
  destruct (execute_task_spec (uuid4 (ticks st)) (time_time (S (ticks st)))
              input_data st0 id Hl) as (st1 & st' & o & E & S1 & T1 & S' & Ev);
    [exact Hc | exact Hid |].
  change (self st0) with (self st) in E, S1, S', Ev.
  change (ticks st0) with (S (S (ticks st))) in T1.
  assert (Hmono : monotone_clock ->
            (0 <= (time_time (ticks st1) - time_time (S (ticks st))) * 1000)%Q).
  { intros Hm.
    apply (elapsed_ms_nonneg (time_time (S (ticks st))) (time_time (ticks st1))).
    apply Hm. lia. }
  assert (Hnow : (S (ticks st) < ticks st1)%nat) by lia.
  unfold try_except. rewrite E.
  destruct (task_outcome (self st) input_data) as [result|e].
  - exists st', o, (ticks st1). cbv zeta.
    split; [reflexivity|]. split; [exact Hnow|]. split; [exact Ev | exact Hmono].
  - destruct Ev as [-> Ev]. destruct (is_Exception e).
    + destruct (execute_failed_spec (uuid4 (ticks st))
                  (time_time (S (ticks st))) e st1 id Hl)
        as (st2 & o2 & E2 & S2 & Ev2); [now rewrite S1 | now rewrite S1 |].
      rewrite E2. exists st2, (o ++ o2), (ticks st1). cbv zeta.
      split; [reflexivity|]. split; [exact Hnow|]. split; [|exact Hmono].
      rewrite task_events_app, Ev, Ev2. reflexivity.
    + exists st1, o, (ticks st1). cbv zeta.
      split; [reflexivity|]. split; [exact Hnow|]. split; [exact Ev | exact Hmono].
Qed.

End Task.

(** ** Subscribing and publishing *)

Section Bus.
Context {rt : Runtime} {hooks : AgentHooks}.

Lemma on_event_spec ty (h : handler) (st : store) :
  on_event ty h st
  = (Ok tt,
     {| self :=
          with_event_handlers (self st)
            (<[ty := default [] (_event_handlers (self st) !! ty) ++ [h]]>
               (_event_handlers (self st)));
        ticks := ticks st |},
     []).
Proof. unfold on_event. now rewrite run_get_self. Qed.

(** Subscribing handlers one after the other appends them, in that order,
    to those already registered for the type. *)
Lemma subscribe_all ty (hs : list handler) (st : store) :
  exists st1,
    for_each hs (on_event ty) st = (Ok tt, st1, []) /\
    manifest (self st1) = manifest (self st) /\
    default [] (_event_handlers (self st1) !! ty)
    = default [] (_event_handlers (self st) !! ty) ++ hs.
Proof.
  revert st. induction hs as [|h hs IH]; intros st.
  - exists st. cbn. now rewrite app_nil_r.
  - cbn [for_each].
    destruct (IH {| self :=
                      with_event_handlers (self st)
                        (<[ty := default [] (_event_handlers (self st) !! ty)
                                 ++ [h]]> (_event_handlers (self st)));
                    ticks := ticks st |}) as (st1 & E & Em & Eh).
    exists st1. split; [|split].
    + rewrite (run_step _ _ _ _ _ _ (on_event_spec ty h st)), E. reflexivity.
    + exact Em.
    + rewrite Eh. cbn [self with_event_handlers _event_handlers].
      rewrite lookup_insert_eq. cbn [default]. unfold id. now rewrite <- app_assoc.
Qed.

(** C6 (amended).  Handlers subscribed one after the other to an event
    type are registered after those already there, in that order.  When
    handler failures are contained (a handler that raises raises an
    [Exception], and is not one subscribed to [log]), publishing one event
    of the type returns normally, invokes every registered handler once,
    in subscription order, with the data of the event, also after a
    handler that raised, and reports each failure, in order, as one
    [ERROR] record and one [log] event. *)
Theorem publish_in_subscription_order
    (ty : string) (data : value) (hs : list handler) (st : store) (id : value) :
  (2 <= recursion_limit)%nat ->
  dict_get (manifest (self st)) "id" = Some id ->
  exists st1,
    for_each hs (on_event ty) st = (Ok tt, st1, []) /\
    (contained (self st1) ->
     let subscribed := default [] (_event_handlers (self st) !! ty) ++ hs in
     exists st2 o,
       emit ty data st1 = (Ok tt, st2, Emitted ty data :: o) /\
       deliveries ty o = map (fun h => (h_id h, data)) subscribed /\
       log_records o
       = map (fun e => (ERROR, handler_error ty e)) (failures data subscribed) /\
       log_events o
       = map (fun e => (VStr "error", VStr (handler_error ty e)))
           (failures data subscribed)).
Proof.
  intros Hl Hid. destruct (subscribe_all ty hs st) as (st1 & E & Em & Eh).
  exists st1. split; [exact E|]. intros Hc subscribed.
  destruct (emit_spec ty data st1 id Hl Hc) as (st2 & o & Ee & D);
    [now rewrite Em|].
  exists st2, o. rewrite Eh in D. destruct D. auto.
Qed.

End Bus.

(** ** Validation *)

Lemma rbind_ok {A B} (x : result A) (k : A -> result B) (b : B) :
  rbind x k = Ok b -> exists a, x = Ok a /\ k a = Ok b.
Proof. destruct x as [a|e]; [eauto | discriminate]. Qed.

Ltac rbind_inv H :=
  let a := fresh "a" in
  let E := fresh "E" in
  apply rbind_ok in H as (a & E & H).

Lemma for_each_r_app {A} (xs ys : list A) (body : A -> result unit) :
  for_each_r (xs ++ ys) body
  = rbind (for_each_r xs body) (fun _ => for_each_r ys body).
Proof.
  induction xs as [|x xs IH]; [reflexivity|]. cbn [for_each_r app].
  destruct (body x) as [[]|e]; [exact IH | reflexivity].
Qed.

Lemma for_each_r_ok {A} (xs : list A) (body : A -> result unit) :
  (forall x, x ∈ xs -> body x = Ok tt) -> for_each_r xs body = Ok tt.
Proof.
  induction xs as [|x xs IH]; intros Hb; [reflexivity|]. cbn.
  rewrite Hb by left. apply IH. intros y Hy. apply Hb. now right.
Qed.

(** A loop with a failing element raises what its first failing element
    raises. *)
Lemma for_each_r_fails {A} (xs : list A) (body : A -> result unit) x e :
  x ∈ xs -> body x = Raise e ->
  exists x' e', x' ∈ xs /\ body x' = Raise e' /\ for_each_r xs body = Raise e'.
Proof.
  induction xs as [|y xs IH]; intros Hin Hx; [now apply elem_of_nil in Hin|].
  cbn. destruct (body y) as [[]|e'] eqn:Ey.
  - apply elem_of_cons in Hin as [->|Hin]; [congruence|].
    destruct (IH Hin Hx) as (x' & e'' & Hin' & Hb & Hf).
    exists x', e''. split; [now right | auto].
  - exists y, e'. split; [left | auto].
Qed.

Section Manifest.
Context {rt : Runtime}.

Lemma required_field_check (m : dict) (k : string) e :
  (if negb (dict_has m k)
   then Raise (Exn ValueError ("Missing required field in manifest: " +:+ k))
   else Ok tt) = Raise e ->
  exn_cls e = ValueError.
Proof. destruct (dict_has m k); cbn; [discriminate | now intros [= <-]]. Qed.

Lemma required_metadata_check (md : dict) (k : string) e :
  rbind (py_in (VStr k) (VDict md)) (fun present =>
    if negb present
    then Raise (Exn ValueError ("Missing required metadata field: " +:+ k))
    else Ok tt) = Raise e ->
  exn_cls e = ValueError.
Proof. cbn. destruct (dict_has md k); cbn; [discriminate | now intros [= <-]]. Qed.

(** C8.  Constructing an agent from a manifest that lacks one of the
    eight top-level keys [id], [name], [version], [description],
    [runtime], [inputs], [outputs], [metadata], or whose [metadata]
    mapping lacks one of [author], [tags], [category], fails with a
    [ValueError] (the manifest error); from a manifest that has these
    eight, and these three in its [metadata] mapping, it succeeds, and
    yields an agent with that manifest that is not running: no other key
    is asked for. *)
Theorem manifest_required_keys (m : dict) :
  (forall k,
     k ∈ ["id"; "name"; "version"; "description"; "runtime"; "inputs";
          "outputs"; "metadata"] ->
     dict_get m k = None ->
     exists msg, __init__ m = Raise (Exn ValueError msg)) /\
  (forall md k, dict_get m "metadata" = Some (VDict md) ->
     k ∈ ["author"; "tags"; "category"] -> dict_get md k = None ->
     exists msg, __init__ m = Raise (Exn ValueError msg)) /\
  (forall md,
     (forall k,
        k ∈ ["id"; "name"; "version"; "description"; "runtime"; "inputs";
             "outputs"; "metadata"] ->
        dict_has m k = true) ->
     dict_get m "metadata" = Some (VDict md) ->
     (forall k, k ∈ ["author"; "tags"; "category"] -> dict_has md k = true) ->
     exists a, __init__ m = Ok a /\ manifest a = m /\ is_running a = false).
Proof.
  unfold __init__, _validate_manifest. cbn [manifest].
  set (top := fun field : string => if negb (dict_has m field) then _ else _).
  set (meta := fun field : string => rbind _ _).
  split; [|split].
  - intros k Hin Hk.
    destruct (for_each_r_fails required_fields top k
                (Exn ValueError ("Missing required field in manifest: " +:+ k)) Hin)
      as (k' & [c msg] & _ & Hb & ->).
    { unfold top, dict_has. now rewrite Hk. }
    apply required_field_check in Hb. cbn in Hb. subst c. cbn. eauto.
  - intros md k Hmd Hin Hk.
    destruct (for_each_r required_fields top) as [[]|[c msg]] eqn:Et.
    + destruct (for_each_r_fails required_metadata meta k
                  (Exn ValueError ("Missing required metadata field: " +:+ k)) Hin)
        as (k' & [c msg] & _ & Hb & Hf).
      { unfold meta, dict_get_default, dict_has. rewrite Hmd. cbn.
        unfold dict_has. now rewrite Hk. }
      unfold meta, dict_get_default in Hb. rewrite Hmd in Hb.
      apply required_metadata_check in Hb. cbn in Hb. subst c.
      cbn [rbind]. rewrite Hf. cbn. eauto.
    + assert (exists k', top k' = Raise (Exn c msg)) as [k' Hb].
      { clear -Et. induction required_fields as [|x xs IH]; [discriminate|].
        cbn in Et. destruct (top x) as [[]|e] eqn:Ex; [auto|].
        injection Et as ->. eauto. }
      apply required_field_check in Hb. cbn in Hb. subst c. cbn. eauto.
  - intros md Htop Hmd Hmeta.
    rewrite (for_each_r_ok required_fields top).
    2:{ intros k Hk. unfold top. now rewrite (Htop k Hk). }
    cbn [rbind]. rewrite (for_each_r_ok required_metadata meta).
    2:{ intros k Hk. unfold meta, dict_get_default. rewrite Hmd. cbn.
        now rewrite (Hmeta k Hk). }
    eexists. split; [reflexivity|]. split; reflexivity.
Qed.

End Manifest.

Section Fields.
Context {rt : Runtime}.

Lemma Qlt_bool_inject_Z (a b : Z) :
  Qlt_bool (inject_Z a) (inject_Z b) = (a <? b)%Z.
Proof.
  unfold Qlt_bool, Qle_bool. cbn. rewrite !Z.mul_1_r.
  now rewrite Z.ltb_antisym.
Qed.

(** For a schema of type [number] and a boolean, none of the five type
    checks raises: what is left is the check of the constraints. *)
Lemma number_type_check_bool (b : bool) (schema : dict) (path : string) :
  dict_get schema "type" = Some (VStr "number") ->
  _validate_value (VBool b) (VDict schema) path
  = let constraints := dict_get_default schema "constraints" (VDict []) in
    if truthy constraints
    then _validate_constraints (VBool b) constraints path
    else Ok tt.
Proof.
  intros Ht.
  assert (Hty : dict_get_default schema "type" VNone = VStr "number")
    by (unfold dict_get_default; now rewrite Ht).
  unfold _validate_value. cbn [py_get rbind]. rewrite Hty. reflexivity.
Qed.

(** C9.  A boolean passes the type check of a field of type [number]:
    validation goes on to the constraints, if any; without constraints it
    succeeds; with integer [min] and [max] it succeeds exactly when the
    boolean, read as 0 or 1, lies within them. *)
Theorem number_accepts_bool (b : bool) (path : string) :
  (forall schema, dict_get schema "type" = Some (VStr "number") ->
     _validate_value (VBool b) (VDict schema) path
     = let constraints := dict_get_default schema "constraints" (VDict []) in
       if truthy constraints
       then _validate_constraints (VBool b) constraints path
       else Ok tt) /\
  _validate_value (VBool b) (VDict [("type", VStr "number")]) path = Ok tt /\
  (forall lo hi : Z,
     _validate_value (VBool b)
       (VDict [("type", VStr "number");
               ("constraints", VDict [("min", VInt lo); ("max", VInt hi)])])
       path = Ok tt
     <-> (lo <= Z.b2z b <= hi)%Z).
Proof.
  split; [|split].
  - intros schema. apply number_type_check_bool.
  - reflexivity.
  - intros lo hi. rewrite number_type_check_bool by reflexivity.
    cbn -[Qlt_bool inject_Z Z.b2z]. rewrite !Qlt_bool_inject_Z.
    destruct (Z.ltb_spec (Z.b2z b) lo) as [Hlo|Hlo]; cbn [rbind].
    + split; [discriminate | lia].
    + destruct (Z.ltb_spec hi (Z.b2z b)) as [Hhi|Hhi]; cbn [rbind].
      * split; [discriminate | lia].
      * split; [lia | reflexivity].
Qed.

(** C4.  Presence is checked differently for inputs and outputs.  A
    declared input that is absent from the input makes [_validate_input]
    fail (with the missing-input error, unless a field declared before it
    fails first) when its schema marks it required; when it does not, the
    field is skipped: its check succeeds and validation is that of the
    other fields.  A declared output that is absent from the result makes
    [_validate_output] fail, whatever its schema says. *)
Theorem field_presence_asymmetry
    (a : BaseAgent) (before after : dict) (key : string) (data : dict) :
  dict_get data key = None ->
  (forall schema,
     dict_get (manifest a) "inputs"
     = Some (VDict (before ++ (key, VDict schema) :: after)) ->
     (truthy (dict_get_default schema "required" (VBool false)) = true ->
      exists e,
        _validate_input a (VDict data) = Raise e /\
        (for_each_r before (input_field (VDict data)) = Ok tt ->
         e = Exn ValueError ("Required input '" +:+ key +:+ "' is missing"))) /\
     (truthy (dict_get_default schema "required" (VBool false)) = false ->
      input_field (VDict data) (key, VDict schema) = Ok tt /\
      _validate_input a (VDict data)
      = for_each_r (before ++ after) (input_field (VDict data)))) /\
  (forall schema,
     dict_get (manifest a) "outputs"
     = Some (VDict (before ++ (key, schema) :: after)) ->
     exists e,
       _validate_output a (VDict data) = Raise e /\
       (for_each_r before (output_field (VDict data)) = Ok tt ->
        e = Exn ValueError ("Required output '" +:+ key +:+ "' is missing"))).
Proof.
  intros Hk.
  assert (Hin : py_in (VStr key) (VDict data) = Ok false).
  { cbn. unfold dict_has. now rewrite Hk. }
  split.
  - intros schema Hs.
    assert (Hd : dict_get_default (manifest a) "inputs" (VDict [])
                 = VDict (before ++ (key, VDict schema) :: after))
      by (unfold dict_get_default; now rewrite Hs).
    unfold _validate_input. rewrite Hd. cbn [py_items rbind].
    rewrite !for_each_r_app.
    cbn [for_each_r]. split; intros Hreq.
    + assert (Hf : input_field (VDict data) (key, VDict schema)
                   = Raise (Exn ValueError
                              ("Required input '" +:+ key +:+ "' is missing"))).
      { unfold input_field. cbn [py_get rbind]. rewrite Hreq, Hin. reflexivity. }
      rewrite Hf. destruct (for_each_r before _) as [[]|e].
      * eexists. split; reflexivity.
      * exists e. split; [reflexivity | discriminate].
    + assert (Hf : input_field (VDict data) (key, VDict schema) = Ok tt).
      { unfold input_field. cbn [py_get rbind]. rewrite Hreq. cbn [rbind].
        rewrite Hin. reflexivity. }
      rewrite Hf. split; reflexivity.
  - intros schema Hs.
    assert (Hd : dict_get_default (manifest a) "outputs" (VDict [])
                 = VDict (before ++ (key, schema) :: after))
      by (unfold dict_get_default; now rewrite Hs).
    unfold _validate_output. rewrite Hd. cbn [py_items rbind].
    rewrite for_each_r_app.
    cbn [for_each_r].
    assert (Hf : output_field (VDict data) (key, schema)
                 = Raise (Exn ValueError
                            ("Required output '" +:+ key +:+ "' is missing"))).
    { unfold output_field. rewrite Hin. reflexivity. }
    rewrite Hf. destruct (for_each_r before _) as [[]|e].
    + eexists. split; reflexivity.
    + exists e. split; [reflexivity | discriminate].
Qed.

End Fields.

Section Pattern.
Context {rt : Runtime}.

(** The pattern check on its own. *)
Lemma pattern_check (v : value) (p : string) (r : Regex.regex) (path : string) :
  re_compile p = Some r ->
  _validate_constraints v (VDict [("pattern", VStr p)]) path
  = if Regex.match_ r (py_str v) then Ok tt
    else Raise (Exn ValueError
                  ("Value for '" +:+ path +:+ "' does not match pattern " +:+ p)).
Proof.
  intros Hp. unfold _validate_constraints, constraint_violated. cbn.
  rewrite Hp. cbn. destruct (Regex.match_ r (py_str v)); reflexivity.
Qed.

(** Constraints that pass and hold a pattern passed the pattern check. *)
Lemma constraints_ok_pattern (v : value) (constraints : dict) (p : string)
    (r : Regex.regex) (path : string) :
  dict_get constraints "pattern" = Some (VStr p) ->
  re_compile p = Some r ->
  _validate_constraints v (VDict constraints) path = Ok tt ->
  Regex.match_ r (py_str v) = true.
Proof.
  intros Hc Hp Hv. unfold _validate_constraints in Hv.
  do 10 rbind_inv Hv.
  cbn in E7. unfold dict_has in E7. rewrite Hc in E7. injection E7 as <-.
  rbind_inv E8. cbn in E7. rewrite Hc in E7. injection E7 as <-.
  rbind_inv E8. cbn in E7. rewrite Hp in E7. injection E7 as <-.
  destruct (Regex.match_ r (py_str v)); [reflexivity|].
  cbn in E8. rewrite Hc in E8. discriminate.
Qed.

(** C3 (amended).  For a field whose constraints hold a pattern,
    validation succeeds only if the pattern matches the string
    representation of the value at its start: some prefix of it is matched
    in full, and what follows the prefix is not looked at.  A value none
    of whose prefixes is matched fails; with the pattern as only
    constraint the error is the [ValueError] that names the field. *)
Theorem pattern_is_matched_at_start
    (v : value) (schema constraints : dict) (p : string) (r : Regex.regex)
    (path : string) :
  dict_get schema "constraints" = Some (VDict constraints) ->
  dict_get constraints "pattern" = Some (VStr p) ->
  re_compile p = Some r ->
  (_validate_value v (VDict schema) path = Ok tt ->
   exists matched rest,
     py_str v = matched +:+ rest /\ Regex.matches r matched) /\
  ((forall matched rest,
      py_str v = matched +:+ rest -> ~ Regex.matches r matched) ->
   exists e, _validate_value v (VDict schema) path = Raise e) /\
  _validate_constraints v (VDict [("pattern", VStr p)]) path
  = (if Regex.match_ r (py_str v) then Ok tt
     else Raise (Exn ValueError
                   ("Value for '" +:+ path +:+ "' does not match pattern "
                    +:+ p))).
Proof.
  intros Hs Hc Hp.
  assert (Hok : _validate_value v (VDict schema) path = Ok tt ->
                Regex.match_ r (py_str v) = true).
  { intros Hv. unfold _validate_value in Hv. do 7 rbind_inv Hv.
    cbn in E5. unfold dict_get_default in E5. rewrite Hs in E5.
    injection E5 as <-.
    destruct constraints as [|c cs]; [discriminate|]. cbn [truthy] in Hv.
    exact (constraints_ok_pattern _ _ _ _ _ Hc Hp Hv). }
  split; [|split].
  - intros Hv. apply RegexFacts.match_spec. now apply Hok.
  - intros Hno. destruct (_validate_value v (VDict schema) path) as [[]|e];
      [|eauto].
    destruct (proj1 (RegexFacts.match_spec r (py_str v)) (Hok eq_refl))
      as (m & t & Hm & Hr).
    destruct (Hno m t Hm Hr).
  - now apply pattern_check.
Qed.

End Pattern.

(** ** Health *)

Section DictFacts.
Context {A : Type}.
Implicit Types (d u : list (string * A)) (k : string).

Lemma dict_get_set d k (v : A) k' :
  dict_get (dict_set d k v) k'
  = if String.eqb k' k then Some v else dict_get d k'.
Proof.
  induction d as [|[k0 v0] d IH]; cbn.
  - reflexivity.
  - destruct (String.eqb_spec k k0) as [->|Hne]; cbn.
    + destruct (String.eqb k' k0); reflexivity.
    + rewrite IH. destruct (String.eqb_spec k' k0) as [->|Hne'];
        [|reflexivity].
      destruct (String.eqb_spec k0 k); [congruence | reflexivity].
Qed.

Lemma dict_get_app d u k :
  dict_get (d ++ u) k
  = match dict_get d k with Some v => Some v | None => dict_get u k end.
Proof.
  induction d as [|[k0 v0] d IH]; cbn; [reflexivity|].
  destruct (String.eqb k k0); [reflexivity | exact IH].
Qed.

(** [d.update(u)]: a key of [u] gets the value [u] binds it to last; any
    other key keeps the value it has in [d]. *)
Lemma dict_get_update d u k :
  dict_get (dict_update d u) k
  = match dict_get (rev u) k with Some v => Some v | None => dict_get d k end.
Proof.
  unfold dict_update. revert d.
  induction u as [|[k0 v0] u IH]; intros d; cbn [fold_left rev fst snd].
  - reflexivity.
  - rewrite IH, dict_get_app, dict_get_set.
    destruct (dict_get (rev u) k); [reflexivity|]. cbn.
    destruct (String.eqb k k0); reflexivity.
Qed.

(** In a dict without repeated keys the last binding is the only one. *)
Lemma dict_get_rev u k :
  NoDup (map fst u) -> dict_get (rev u) k = dict_get u k.
Proof.
  induction u as [|[k0 v0] u IH]; intros Hnd; [reflexivity|].
  apply NoDup_cons in Hnd as [Hk0 Hnd]. cbn [rev].
  rewrite dict_get_app, IH by exact Hnd. cbn.
  destruct (String.eqb_spec k k0) as [->|Hne].
  - destruct (dict_get u k0) eqn:E; [|reflexivity]. exfalso. apply Hk0.
    clear -E. induction u as [|[k1 v1] u IH]; [discriminate|]. cbn in *.
    destruct (String.eqb_spec k0 k1) as [->|Hne]; [left|right; auto].
  - destruct (dict_get u k); reflexivity.
Qed.

End DictFacts.

Section Health.
Context {rt : Runtime} {hooks : AgentHooks}.

Lemma update_health_spec new_status new_details new_metrics (st : store) :
  exists r st' o,
    update_health new_status new_details new_metrics st
    = (r, st',
       Emitted "health:updated"
         (asdict_health
            (updated_health (health_status (self st))
               new_status new_details new_metrics)) :: o) /\
    health_status (self st')
    = updated_health (health_status (self st))
        new_status new_details new_metrics.
Proof.
  unfold update_health.
  set (h3 := updated_health (health_status (self st))
               new_status new_details new_metrics).
  set (rest := bind get_self _).
  assert (Hrest : forall a t,
            health_status a = h3 ->
            exists r st' o,
              rest {| self := a; ticks := t |}
              = (r, st', Emitted "health:updated" (asdict_health h3) :: o) /\
              health_status (self st') = h3).
  { intros a t Ha. unfold rest. rewrite run_get_self. cbn [self]. rewrite Ha.
    destruct (emit_event_head recursion_limit "health:updated"
                (asdict_health h3) {| self := a; ticks := t |})
      as (r & st' & o & E).
    exists r, st', o. split; [exact E|].
    now rewrite (keeps_emit _ _ _ _ _ _ E). }
  destruct st as [a t]. cbn [self] in *.
  destruct new_status as [s|], new_details as [d|], new_metrics as [m|];
    repeat first [ rewrite run_pure | rewrite run_get_self
                 | rewrite run_set_self | rewrite (run_step _ _ _ tt _ [])
                     by (first [ now rewrite run_get_self, run_set_self
                               | reflexivity ]) ];
    cbn [prepend self ticks health_status with_health_status
           status details metrics app];
    rewrite ?prepend_nil;
    apply Hrest; destruct a as [? ? ? ? [? ? ?] ?]; reflexivity.
Qed.

(** C7.  [update_health] merges.  A status that is given replaces the
    current one; given details and metrics are merged key by key into the
    mappings there are: a key of the argument gets the argument's value,
    any other key keeps its value.  Every call emits [health:updated],
    whatever the handlers do, and the event is the full resulting
    snapshot: a mapping with exactly the keys [status], [details] and
    [metrics], in that order, bound to the status, and to the two
    mappings, the agent has after the call.  Merging
    [{a: 1}] then [{b: 2}] into the empty mapping gives [{a: 1, b: 2}],
    and merging [{a: 3}] into that gives [{a: 3, b: 2}]. *)
Theorem health_updates_merge
    (new_status : option string) (new_details new_metrics : option dict)
    (st : store) :
  let h := health_status (self st) in
  let h' := updated_health h new_status new_details new_metrics in
  (exists r st' o,
     update_health new_status new_details new_metrics st
     = (r, st',
        Emitted "health:updated"
          (VDict [("status", VStr (status h'));
                  ("details", VDict (details h'));
                  ("metrics", VDict (metrics h'))])
        :: o) /\
     health_status (self st') = h') /\
  status h' = default (status h) new_status /\
  (forall k,
     dict_get (details h') k
     = match dict_get (rev (default [] new_details)) k with
       | Some v => Some v
       | None => dict_get (details h) k
       end) /\
  (forall k,
     dict_get (metrics h') k
     = match dict_get (rev (default [] new_metrics)) k with
       | Some v => Some v
       | None => dict_get (metrics h) k
       end) /\
  dict_update (dict_update [] [("a", VInt 1)]) [("b", VInt 2)]
  = [("a", VInt 1); ("b", VInt 2)] /\
  dict_update [("a", VInt 1); ("b", VInt 2)] [("a", VInt 3)]
  = [("a", VInt 3); ("b", VInt 2)].
Proof.
  intros h h'. split; [exact (update_health_spec _ _ _ st)|].
  split; [reflexivity|]. split; [|split; [|split; reflexivity]].
  - intros k. apply dict_get_update.
  - intros k. apply dict_get_update.
Qed.

End Health.

(* ===================================================================== *)
(** * The properties on concrete agents *)
(* ===================================================================== *)

Section Examples.
Import Sample.
#[local] Existing Instance runtime.

Lemma subscribed_contained ty (hs : list handler) :
  ty <> "log" ->
  Forall (fun h => forall data e,
            h_call h data = Raise e -> is_Exception e = true) hs ->
  contained (self (subscribed ty hs)).
Proof.
  intros Hty Hhs ty' hs' h data e Hl Hin Hcall. cbn in Hl.
  apply lookup_singleton_Some in Hl as [<- <-].
  split; [|exact Hty].
  rewrite Forall_forall in Hhs. exact (Hhs h Hin data e Hcall).
Qed.

Lemma no_handlers_contained (m : dict) : contained (self (running m)).
Proof. intros ty hs h data e Hl. cbn in Hl. now rewrite lookup_empty in Hl. Qed.

(** ** The running flag *)

(** [on_initialize] raises: [initialize] fails, the agent is running all
    the same, and [execute] then runs a task (which fails in the hook). *)
Lemma failed_initialize_leaves_agent_running :
  let st' :=
    {| self := initializing (agent_of plain_manifest) ctx []; ticks := 0 |} in
  initialize (hooks := broken) ctx None (fresh plain_manifest)
  = (Raise (Exn RuntimeError "cannot initialize"), st', []) /\
  is_running (self st') = true /\
  (execute (hooks := broken) (VDict []) st').1.1
  = Raise (Exn RuntimeError "cannot execute") /\
  map fst (task_events (execute (hooks := broken) (VDict []) st').2)
  = ["task:started"; "task:failed"].
Proof. vm_compute. auto. Qed.

Lemma running_flag_witness :
  let st' :=
    {| self := initializing (agent_of plain_manifest) ctx []; ticks := 0 |} in
  initialize (hooks := broken) ctx None (fresh plain_manifest)
  = (Raise (Exn RuntimeError "cannot initialize"), st', []) /\
  is_running (self st') = true /\
  forall input_data, exists r st'' o,
    execute (hooks := broken) input_data st'
    = (r, st'',
       Emitted "task:started"
         (VDict [("task_id", VStr (uuid4 0)); ("input", input_data);
                 ("agent_id", VStr "echo")]) :: o).
Proof.
  exact (proj2 (proj2 (running_flag (hooks := broken) ctx None
                         (fresh plain_manifest)))
           [] _ (VStr "echo") eq_refl eq_refl eq_refl).
Defined.

Example initialize_then_shutdown :
  let st1 := (initialize (hooks := echo) ctx None (fresh plain_manifest)).1.2 in
  is_running (self st1) = true /\
  is_running (self (shutdown (hooks := echo) st1).1.2) = false.
Proof. vm_compute. auto. Qed.

Lemma shutdown_hook_failure_witness :
  let st := running plain_manifest in
  let st' := {| self := with_is_running (self st) false; ticks := 0 |} in
  shutdown (hooks := broken) st
  = (Raise (Exn RuntimeError "cannot shut down"), st', []) /\
  is_running (self st') = false /\
  forall input_data,
    execute (hooks := broken) input_data st' = (Raise not_running, st', []).
Proof.
  exact (shutdown_hook_failure (hooks := broken) (running plain_manifest)
           _ eq_refl).
Defined.

(** ** The events of one task *)

(** The terminal event has a field [execution_time] and none called
    [execution_time_ms].  The clock of the sample runtime reads 1 and 2
    seconds: the field is 1000. *)
Lemma terminal_event_field_name :
  exists started completed,
    task_events (execute (hooks := echo) (VDict []) (running plain_manifest)).2
    = [("task:started", started); ("task:completed", VDict completed)] /\
    dict_get completed "execution_time_ms" = None /\
    dict_get completed "execution_time" = Some (VFloat (1000 # 1)).
Proof. vm_compute. eauto. Qed.

(** A task whose [task:started] handler raises. *)
Lemma execute_task_events_witness :
  exists st' o now,
    execute (hooks := echo) (VDict []) (subscribed "task:started" [h_bad])
    = (Ok (VDict []), st', o) /\
    (1 < now)%nat /\
    task_events o
    = [("task:started",
        VDict [("task_id", VStr "task-0"); ("input", VDict []);
               ("agent_id", VStr "echo")]);
       ("task:completed",
        VDict [("task_id", VStr "task-0");
               ("result", VDict []);
               ("execution_time",
                VFloat ((inject_Z (Z.of_nat now) - 1) * 1000)%Q);
               ("agent_id", VStr "echo")])] /\
    (monotone_clock -> (0 <= (inject_Z (Z.of_nat now) - 1) * 1000)%Q).
Proof.
  refine (execute_task_events (hooks := echo) (VDict [])
            (subscribed "task:started" [h_bad]) (VStr "echo") _ _ _ _).
  - cbn. lia.
  - apply subscribed_contained; [discriminate|].
    repeat constructor. now intros data e [= <-].
  - reflexivity.
  - reflexivity.
Defined.

Example sample_clock_monotone : monotone_clock.
Proof.
  intros i j Hij. cbn. rewrite <- Zle_Qle. lia.
Qed.

(** ** The event bus *)

(** A handler interrupted from the keyboard: the exception leaves
    [_emit_event] and the handler after it is not invoked.  A handler of
    [log] events that raises: [_emit_event] and [log] call each other
    until the stack is exhausted. *)
Lemma handler_failure_escapes :
  emit "X" VNone (subscribed "X" [h_interrupt; h_ok])
  = (Raise (Exn BaseOnly "KeyboardInterrupt"),
     subscribed "X" [h_interrupt; h_ok],
     [Emitted "X" VNone; Delivered 3 "X" VNone]) /\
  (emit "log" VNone (subscribed "log" [h_bad])).1.1
  = Raise (Exn RecursionError "maximum recursion depth exceeded").
Proof. split; vm_compute; reflexivity. Qed.

Lemma publish_in_subscription_order_witness :
  exists st1,
    for_each [h_bad; h_ok] (on_event "X") (running plain_manifest)
    = (Ok tt, st1, []) /\
    contained (self st1) /\
    exists st2 o,
      emit "X" VNone st1 = (Ok tt, st2, Emitted "X" VNone :: o) /\
      deliveries "X" o = [(1%nat, VNone); (2%nat, VNone)] /\
      log_records o = [(ERROR, "Error in event handler for X: boom")] /\
      log_events o
      = [(VStr "error", VStr "Error in event handler for X: boom")].
Proof.
  destruct (publish_in_subscription_order "X" VNone [h_bad; h_ok]
              (running plain_manifest) (VStr "echo"))
    as (st1 & E & Hpub); [cbn; lia | reflexivity |].
  exists st1. split; [exact E|].
  assert (Hc : contained (self st1)).
  { vm_compute in E. injection E as <-.
    intros ty hs h data e Hl Hin Hcall.
    assert (ty = "X" /\ hs = [h_bad; h_ok]) as [-> ->].
    { destruct (decide (ty = "X")) as [->|Hne].
      - split; [reflexivity|].
        change (({["X" := [h_bad; h_ok]]} : gmap string (list handler)) !! "X"
                = Some hs) in Hl.
        rewrite lookup_singleton_eq in Hl. congruence.
      - change (({["X" := [h_bad; h_ok]]} : gmap string (list handler)) !! ty
                = Some hs) in Hl.
        rewrite lookup_singleton_ne in Hl by congruence. discriminate. }
    split; [|discriminate].
    apply elem_of_cons in Hin as [->|Hin].
    - now injection Hcall as <-.
    - apply list_elem_of_singleton in Hin as ->. discriminate. }
  split; [exact Hc|]. exact (Hpub Hc).
Defined.

(** ** Validation *)

(** The pattern [a] accepts [ab], which it does not match in full. *)
Lemma pattern_accepts_proper_prefix :
  re_compile "a" = Some (Regex.literal "a") /\
  _validate_value (VStr "ab") (VDict starts_with_a) "name" = Ok tt /\
  Regex.fullmatch (Regex.literal "a") (py_str (VStr "ab")) = false /\
  Regex.match_ (Regex.literal "a") (py_str (VStr "ab")) = true.
Proof. vm_compute. auto. Qed.

Lemma pattern_is_matched_at_start_witness :
  (_validate_value (VStr "ab") (VDict starts_with_a) "name" = Ok tt ->
   exists matched rest,
     "ab" = matched +:+ rest /\ Regex.matches (Regex.literal "a") matched) /\
  ((forall matched rest,
      "ab" = matched +:+ rest -> ~ Regex.matches (Regex.literal "a") matched) ->
   exists e, _validate_value (VStr "ab") (VDict starts_with_a) "name" = Raise e) /\
  _validate_constraints (VStr "ab") (VDict [("pattern", VStr "a")]) "name"
  = Ok tt.
Proof.
  exact (pattern_is_matched_at_start (VStr "ab") starts_with_a
           [("pattern", VStr "a")] "a" (Regex.literal "a") "name"
           eq_refl eq_refl eq_refl).
Defined.

Example pattern_rejects_other_start :
  _validate_value (VStr "ba") (VDict starts_with_a) "name"
  = Raise (Exn ValueError "Value for 'name' does not match pattern a").
Proof. reflexivity. Qed.

(** A required input that is missing fails, an optional one is skipped; a
    missing output fails whether it is marked required or not. *)
Lemma field_presence_asymmetry_witness :
  _validate_input (agent_of (amount_manifest true false)) (VDict [])
  = Raise (Exn ValueError "Required input 'amount' is missing") /\
  _validate_input (agent_of (amount_manifest false false)) (VDict []) = Ok tt /\
  _validate_output (agent_of (amount_manifest true false)) (VDict [])
  = Raise (Exn ValueError "Required output 'amount' is missing").
Proof.
  pose proof (field_presence_asymmetry (agent_of (amount_manifest true false))
                [] [] "amount" [] eq_refl) as [Hin Hout].
  pose proof (field_presence_asymmetry (agent_of (amount_manifest false false))
                [] [] "amount" [] eq_refl) as [Hopt _].
  split; [|split].
  - destruct (Hin _ eq_refl) as [Hreq _].
    destruct (Hreq eq_refl) as (e & -> & He). now rewrite (He eq_refl).
  - destruct (Hopt _ eq_refl) as [_ Hskip].
    destruct (Hskip eq_refl) as [_ ->]. reflexivity.
  - destruct (Hout _ eq_refl) as (e & -> & He). now rewrite (He eq_refl).
Defined.

Example manifest_examples :
  (exists a, __init__ plain_manifest = Ok a) /\
  __init__ (List.filter (fun kv => negb (String.eqb (fst kv) "runtime"))
              plain_manifest)
  = Raise (Exn ValueError "Missing required field in manifest: runtime") /\
  __init__ (dict_set plain_manifest "metadata" (VDict [("author", VStr "a")]))
  = Raise (Exn ValueError "Missing required metadata field: tags").
Proof. vm_compute. eauto. Qed.

Example number_field_examples :
  _validate_value (VBool true) (number_field true) "amount" = Ok tt /\
  _validate_value (VStr "1") (number_field true) "amount"
  = Raise (Exn ValueError "Expected number for 'amount', got str") /\
  _validate_value (VInt 1) (VDict [("type", VStr "boolean")]) "flag"
  = Raise (Exn ValueError "Expected boolean for 'flag', got int").
Proof. vm_compute. auto. Qed.

(** ** Health *)

Example health_example :
  let st1 := (update_health None None (Some [("a", VInt 1)])
                (running plain_manifest)).1.2 in
  let st2 := (update_health None None (Some [("b", VInt 2)]) st1).1.2 in
  let st3 := (update_health (Some "degraded") None (Some [("a", VInt 3)])
                st2).1.2 in
  metrics (health_status (self st2)) = [("a", VInt 1); ("b", VInt 2)] /\
  metrics (health_status (self st3)) = [("a", VInt 3); ("b", VInt 2)] /\
  status (health_status (self st3)) = "degraded".
Proof. vm_compute. auto. Qed.

End Examples.

(* ===================================================================== *)
(** * Further properties: validation *)
(* ===================================================================== *)

Import Describe.

Lemma for_each_r_ext {A} (xs : list A) (f g : A -> result unit) :
  (forall x, x ∈ xs -> f x = g x) -> for_each_r xs f = for_each_r xs g.
Proof.
  induction xs as [|x xs IH]; intros Hfg; [reflexivity|]. cbn.
  rewrite (Hfg x) by left. destruct (g x); [|reflexivity].
  apply IH. intros y Hy. apply Hfg. now right.
Qed.

Lemma dict_get_not_key {A} (d : list (string * A)) (k key : string) (v : A) :
  dict_get d k = None -> (key, v) ∈ d -> key <> k.
Proof.
  induction d as [|[k0 v0] d IH]; intros Hk Hin; [now apply elem_of_nil in Hin|].
  cbn in Hk. destruct (String.eqb_spec k k0) as [->|Hne]; [discriminate|].
  apply elem_of_cons in Hin as [[= -> ->]|Hin]; [congruence | auto].
Qed.

Section MoreValidation.
Context {rt : Runtime}.

(** X1.  With a declared type and no constraints, [_validate_value]
    accepts exactly the values of the shape the type names: a list for
    [array], a dict for [object], a string for [string] and [text], a
    boolean, integer or float for [number], a boolean for [boolean].  Any
    other type name is not checked at all.  A value of the wrong shape is
    refused with a [ValueError] that names the expected kind, the path and
    the type of the value. *)
Theorem type_check_exact (v : value) (t path : string) :
  _validate_value v (VDict [("type", VStr t)]) path
  = if shape_ok t v then Ok tt
    else Raise (Exn ValueError
                  ("Expected " +:+ kind_of t +:+ " for '" +:+ path
                   +:+ "', got " +:+ type_name v)).
Proof.
  unfold _validate_value, shape_ok, kind_of, expected.
  cbn [py_get rbind dict_get_default dict_get String.eqb Ascii.eqb
         Bool.eqb existsb py_eq num_of].
  destruct (String.eqb_spec t "array") as [->|_];
    [destruct v; reflexivity|].
  destruct (String.eqb_spec t "object") as [->|_];
    [destruct v; reflexivity|].
  destruct (String.eqb_spec t "string") as [->|_];
    [destruct v; reflexivity|].
  destruct (String.eqb_spec t "text") as [->|_];
    [destruct v; reflexivity|].
  destruct (String.eqb_spec t "number") as [->|_];
    [destruct v; reflexivity|].
  destruct (String.eqb_spec t "boolean") as [->|_];
    [destruct v; reflexivity|].
  reflexivity.
Qed.

Lemma unknown_type_eqb (t : string) :
  t ∉ known_types ->
  String.eqb t "array" = false /\ String.eqb t "object" = false /\
  String.eqb t "string" = false /\ String.eqb t "text" = false /\
  String.eqb t "number" = false /\ String.eqb t "boolean" = false.
Proof.
  intros Hn. unfold known_types in Hn.
  repeat split; apply String.eqb_neq; intros ->; apply Hn;
    repeat (first [left | right]).
Qed.

(** X2.  A field whose schema declares no type, or a type outside the
    five known names ([integer], say), gets no type check: validation is
    that of its constraints alone, and without constraints every value is
    accepted. *)
Theorem undeclared_type_is_unchecked (v : value) (schema : dict) (path : string) :
  (dict_get schema "type" = None \/
   exists t, dict_get schema "type" = Some (VStr t) /\ t ∉ known_types) ->
  _validate_value v (VDict schema) path
  = let constraints := dict_get_default schema "constraints" (VDict []) in
    if truthy constraints then _validate_constraints v constraints path
    else Ok tt.
Proof.
  intros Ht. unfold _validate_value. cbn [py_get rbind].
  destruct Ht as [Ht | (t & Ht & Hn)].
  - unfold dict_get_default at 1 2 3 4 5. rewrite Ht. reflexivity.
  - unfold dict_get_default at 1 2 3 4 5. rewrite Ht.
    destruct (unknown_type_eqb t Hn) as (E1 & E2 & E3 & E4 & E5 & E6).
    cbn [py_eq num_of existsb]. rewrite E1, E2, E3, E4, E5, E6. reflexivity.
Qed.

(** X3.  An agent that declares the one input [key], a required number
    with a minimum: an input that binds [key] to an integer passes
    [_validate_input] when the integer is at least the minimum, and
    otherwise fails with a [ValueError] that cites the key and the
    minimum. *)
Theorem required_number_with_min (a : BaseAgent) (key : string) (lo n : Z) :
  dict_get (manifest a) "inputs"
  = Some (VDict [(key, VDict [("type", VStr "number");
                              ("required", VBool true);
                              ("constraints", VDict [("min", VInt lo)])])]) ->
  _validate_input a (VDict [(key, VInt n)])
  = if (n <? lo)%Z
    then Raise (Exn ValueError
                  ("Value for '" +:+ key +:+ "' must be >= " +:+ pretty lo))
    else Ok tt.
Proof.
  intros Hs.
  assert (Hin : py_in (VStr key) (VDict [(key, VInt n)]) = Ok true).
  { cbn. unfold dict_has. cbn. now rewrite String.eqb_refl. }
  assert (Hget : py_getitem (VDict [(key, VInt n)]) key = Ok (VInt n)).
  { cbn. now rewrite String.eqb_refl. }
  unfold _validate_input, dict_get_default. rewrite Hs.
  cbn [py_items rbind for_each_r]. unfold input_field.
  cbn [py_get rbind dict_get_default dict_get String.eqb Ascii.eqb Bool.eqb
         truthy].
  rewrite Hin. cbn [rbind negb]. rewrite Hget. cbn [rbind].
  unfold _validate_value.
  cbn -[Qlt_bool inject_Z pretty]. rewrite Qlt_bool_inject_Z.
  destruct (n <? lo)%Z; reflexivity.
Qed.

(** In the embedding the two length checks compare the length of
    [py_str v] with the bounds. *)
Lemma length_bounds_len_str (v : value) (lo hi : Z) (path : string) :
  _validate_constraints v
    (VDict [("minLength", VInt lo); ("maxLength", VInt hi)]) path = Ok tt
  <-> (lo <= Z.of_nat (String.length (py_str v)) <= hi)%Z.
Proof.
  unfold _validate_constraints, constraint_violated, len_str, py_gt.
  cbn -[Qlt_bool inject_Z pretty py_str]. rewrite !Qlt_bool_inject_Z.
  destruct (Z.ltb_spec (Z.of_nat (String.length (py_str v))) lo);
    cbn [rbind]; [split; [discriminate | lia]|].
  destruct (Z.ltb_spec hi (Z.of_nat (String.length (py_str v))));
    cbn [rbind]; [split; [discriminate | lia]|].
  split; [lia | reflexivity].
Qed.

(** X4.  The length constraints measure the string representation of the
    value, not only strings: with integer [minLength] and [maxLength] the
    check passes exactly when the number of characters of [str(value)]
    lies within them.  That number is the length of a string, the length
    of the decimal numeral (sign included) of an integer, 4 for [None]
    and [True], and 5 for [False].  Stated for ASCII strings, whose
    characters are the bytes of the embedding's strings, and for integers
    of at most 640 digits, which [str] converts under every setting of
    the interpreter's limit on the digits of an integer. *)
Theorem length_bounds_measure_str (lo hi : Z) (path : string) :
  let bounds := VDict [("minLength", VInt lo); ("maxLength", VInt hi)] in
  (forall s : string,
     isascii s = true ->
     _validate_constraints (VStr s) bounds path = Ok tt
     <-> (lo <= Z.of_nat (String.length s) <= hi)%Z) /\
  (forall n : Z,
     (Z.abs n < 10 ^ 640)%Z ->
     _validate_constraints (VInt n) bounds path = Ok tt
     <-> (lo <= Z.of_nat (String.length (pretty n)) <= hi)%Z) /\
  (_validate_constraints VNone bounds path = Ok tt <-> (lo <= 4 <= hi)%Z) /\
  (forall b : bool,
     _validate_constraints (VBool b) bounds path = Ok tt
     <-> (lo <= (if b then 4 else 5) <= hi)%Z).
Proof.
  intros bounds. split; [|split; [|split]].
  - intros s _. apply length_bounds_len_str.
  - intros n _. apply length_bounds_len_str.
  - apply length_bounds_len_str.
  - intros [|]; apply length_bounds_len_str.
Qed.

(** X5.  Constraints are checked in a fixed order and the first violation
    is the one reported: a value below [min] fails with the error of
    [min], whatever the other constraints are and whether the value meets
    them. *)
Theorem min_is_reported_first
    (v bound : value) (constraints : dict) (path : string) :
  dict_get constraints "min" = Some bound ->
  py_lt v bound = Ok true ->
  _validate_constraints v (VDict constraints) path
  = Raise (Exn ValueError
             ("Value for '" +:+ path +:+ "' must be >= " +:+ py_str bound)).
Proof.
  intros Hc Hlt. unfold _validate_constraints, constraint_violated.
  cbn [py_in py_getitem]. unfold dict_has. rewrite Hc. cbn [rbind].
  rewrite Hlt. reflexivity.
Qed.

(** X6.  A [min] on a value that cannot be ordered against it is no
    validation error: for a string value and an integer bound the
    comparison raises [TypeError], which leaves [_validate_constraints]
    as it is. *)
Theorem min_on_string_raises_type_error
    (s : string) (lo : Z) (constraints : dict) (path : string) :
  dict_get constraints "min" = Some (VInt lo) ->
  _validate_constraints (VStr s) (VDict constraints) path
  = Raise (Exn TypeError
             "'<' not supported between instances of 'str' and 'int'").
Proof.
  intros Hc. unfold _validate_constraints, constraint_violated.
  cbn [py_in py_getitem]. unfold dict_has. rewrite Hc. reflexivity.
Qed.

(** X7.  Keys of the input that the manifest does not declare are not
    looked at: binding such a key in the input, or changing its value,
    leaves the outcome of [_validate_input] as it is. *)
Theorem undeclared_input_keys_ignored
    (a : BaseAgent) (declared input_data : dict) (k : string) (v : value) :
  dict_get (manifest a) "inputs" = Some (VDict declared) ->
  dict_get declared k = None ->
  _validate_input a (VDict (dict_set input_data k v))
  = _validate_input a (VDict input_data).
Proof.
  intros Hs Hk. unfold _validate_input, dict_get_default. rewrite Hs.
  cbn [py_items rbind]. apply for_each_r_ext. intros [key schema] Hin.
  assert (Hne : key <> k) by exact (dict_get_not_key _ _ _ _ Hk Hin).
  unfold input_field. cbn [py_in py_getitem]. unfold dict_has.
  rewrite dict_get_set.
  destruct (String.eqb_spec key k); [contradiction | reflexivity].
Qed.

(** X8.  An agent that declares no inputs (or no outputs) accepts every
    input (or result), a value that is no mapping included.  Once an
    output is declared, a result [None] is refused with a [TypeError]:
    the membership test on it raises. *)
Theorem empty_schema_accepts_anything (a : BaseAgent) (v : value) :
  ((dict_get (manifest a) "inputs" = None \/
    dict_get (manifest a) "inputs" = Some (VDict [])) ->
   _validate_input a v = Ok tt) /\
  ((dict_get (manifest a) "outputs" = None \/
    dict_get (manifest a) "outputs" = Some (VDict [])) ->
   _validate_output a v = Ok tt) /\
  (forall key schema rest,
     dict_get (manifest a) "outputs" = Some (VDict ((key, schema) :: rest)) ->
     _validate_output a VNone
     = Raise (Exn TypeError "argument of type 'NoneType' is not iterable")).
Proof.
  split; [|split].
  - unfold _validate_input, dict_get_default. now intros [-> | ->].
  - unfold _validate_output, dict_get_default. now intros [-> | ->].
  - intros key schema rest Hs. unfold _validate_output, dict_get_default.
    now rewrite Hs.
Qed.

End MoreValidation.

Section MoreManifest.
Context {rt : Runtime}.


(** X10.  The check of the metadata is a membership test, so what it
    accepts depends on the type of the [metadata] value: a list that holds
    the three names passes like a mapping with the three keys, while
    [None], a boolean or a number makes construction fail with a
    [TypeError], not a manifest error. *)
Theorem metadata_need_not_be_a_mapping (m : dict) (md : value) :
  (forall k, k ∈ required_fields -> dict_has m k = true) ->
  dict_get m "metadata" = Some md ->
  (forall l, md = VList l ->
     (forall k, k ∈ required_metadata -> existsb (py_eq (VStr k)) l = true) ->
     exists a, __init__ m = Ok a) /\
  (is_number md = true \/ md = VNone ->
   __init__ m
   = Raise (Exn TypeError
              ("argument of type '" +:+ type_name md +:+ "' is not iterable"))).
Proof.
  intros Htop Hmd. unfold __init__, _validate_manifest. cbn [manifest].
  rewrite for_each_r_ok by (intros k Hk; now rewrite (Htop k Hk)).
  cbn [rbind]. unfold dict_get_default. rewrite Hmd. split.
  - intros l -> Hl. rewrite for_each_r_ok; [eauto|].
    intros k Hk. cbn [py_in rbind]. now rewrite (Hl k Hk).
  - intros [Hn | ->]; [|reflexivity]. destruct md; try discriminate; reflexivity.
Qed.

End MoreManifest.

(* ===================================================================== *)
(** * Further properties: the event bus and the lifecycle *)
(* ===================================================================== *)

Import Describe.

(** ** What a method emits *)

Section EmitsOnly.
Context {rt : Runtime}.
Variables (P : obs -> Prop) (a : BaseAgent).

Lemma eo_pure {A} (x : A) : emits_only P a (pure x).
Proof. intros st r st' o Hs [= _ <- <-]. auto. Qed.

Lemma eo_raise {A} (e : exn) : emits_only P a (@raise A e).
Proof. intros st r st' o Hs [= _ <- <-]. auto. Qed.

Lemma eo_lift {A} (x : result A) : emits_only P a (lift x).
Proof. intros st r st' o Hs [= _ <- <-]. auto. Qed.

Lemma eo_tick {A} (f : nat -> A) : emits_only P a (tick f).
Proof. intros st r st' o Hs [= _ <- <-]. auto. Qed.

Lemma eo_tell (x : obs) : P x -> emits_only P a (tell x).
Proof. intros Hx st r st' o Hs [= _ <- <-]. auto. Qed.

Lemma eo_bind {A B} (m : M A) (k : A -> M B) :
  emits_only P a m -> (forall x, emits_only P a (k x)) ->
  emits_only P a (bind m k).
Proof.
  intros Hm Hk st r st' o Hs. unfold bind.
  destruct (m st) as [[[x|e] st1] o1] eqn:E1.
  - destruct (Hm _ _ _ _ Hs E1) as [S1 F1].
    destruct (k x st1) as [[r2 st2] o2] eqn:E2. cbn. intros [= _ <- <-].
    destruct (Hk x _ _ _ _ S1 E2) as [S2 F2].
    split; [exact S2 | now apply Forall_app].
  - intros [= _ <- <-]. exact (Hm _ _ _ _ Hs E1).
Qed.

Lemma eo_get_self {B} (k : BaseAgent -> M B) :
  emits_only P a (k a) -> emits_only P a (bind get_self k).
Proof.
  intros Hk st r st' o Hs. rewrite run_get_self, Hs. now apply Hk.
Qed.

Lemma eo_manifest_id {B} (k : value -> M B) :
  (forall x, emits_only P a (k x)) -> emits_only P a (bind manifest_id k).
Proof.
  intros Hk. apply eo_bind; [|exact Hk].
  apply eo_get_self, eo_lift.
Qed.

Lemma eo_for_each {A} (xs : list A) (body : A -> M unit) :
  (forall x, x ∈ xs -> emits_only P a (body x)) ->
  emits_only P a (for_each xs body).
Proof.
  induction xs as [|x xs IH]; intros Hb; cbn [for_each].
  - apply eo_pure.
  - apply eo_bind; [apply Hb; left | intros _; apply IH].
    intros y Hy. apply Hb. now right.
Qed.

End EmitsOnly.

Lemma eo_weaken {A} (P Q : obs -> Prop) (a : BaseAgent) (m : M A) :
  (forall x, P x -> Q x) -> emits_only P a m -> emits_only Q a m.
Proof.
  intros HPQ Hm st r st' o Hs E. destruct (Hm _ _ _ _ Hs E) as [S F].
  split; [exact S | exact (Forall_impl _ _ _ F HPQ)].
Qed.

Section Bus2.
Context {rt : Runtime}.

Lemma concerns_log (a : BaseAgent) (ty : string) (x : obs) :
  concerns a "log" x -> concerns a ty x.
Proof.
  destruct x as [ty' d|h ty' d|l m]; cbn; [tauto | | tauto].
  intros [Hty Hreg]. split; [tauto | exact Hreg].
Qed.

Lemma emit_event_concerns depth ty data (a : BaseAgent) :
  emits_only (concerns a ty) a (_emit_event depth ty data).
Proof.
  revert ty data. induction depth as [|d IH]; intros ty data.
  - cbn [_emit_event]. apply eo_bind; [apply eo_tell; now left|].
    intros _. apply eo_raise.
  - rewrite emit_event_unfold. apply eo_bind; [apply eo_tell; now left|].
    intros _. apply eo_get_self.
    destruct (_event_handlers a !! ty) as [hs|] eqn:E; [|apply eo_pure].
    apply eo_for_each. intros h Hin.
    apply eo_bind.
    { apply eo_tell. split; [now left | exists hs, h; auto]. }
    intros _.
    destruct (h_call h data) as [u|e]; [apply eo_pure|].
    destruct (is_Exception e); [|apply eo_raise].
    unfold log_with. apply eo_bind; [apply eo_tick|]. intros ts.
    apply eo_manifest_id. intros id. apply eo_get_self.
    apply eo_bind; [apply eo_lift|]. intros _.
    apply eo_bind; [now apply eo_tell|]. intros _.
    apply eo_weaken with (P := concerns a "log"); [apply concerns_log|].
    apply IH.
Qed.

(** X11.  Publishing an event of one type emits events of that type and
    of type [log] only, and invokes only handlers that are registered for
    the type of the event they are handed: a handler never sees an event
    of a type it did not subscribe to.  The agent is left as it is. *)
Theorem emit_reaches_only_subscribers
    (ty : string) (data : value) (st : store) r st' o :
  emit ty data st = (r, st', o) ->
  self st' = self st /\ Forall (concerns (self st) ty) o.
Proof. intros E. exact (emit_event_concerns _ ty data (self st) st r st' o eq_refl E). Qed.

Lemma events_of_app ty (o1 o2 : list obs) :
  events_of ty (o1 ++ o2) = events_of ty o1 ++ events_of ty o2.
Proof. unfold events_of. rewrite emitted_app. apply omap_app. Qed.

Lemma events_of_log ty (o : list obs) :
  ty <> "log" -> Forall (fun e => fst e = "log") (emitted o) ->
  events_of ty o = [].
Proof.
  intros Hty. unfold events_of.
  induction 1 as [|[ty' d] es Hl _ IH]; [reflexivity|]. cbn in *. subst ty'.
  destruct (String.eqb_spec "log" ty); [congruence | exact IH].
Qed.

Lemma events_of_emit ty data (o : list obs) :
  ty <> "log" -> Forall (fun e => fst e = "log") (emitted o) ->
  events_of ty (Emitted ty data :: o) = [data].
Proof.
  intros Hty Ho. change (Emitted ty data :: o) with ([Emitted ty data] ++ o).
  rewrite events_of_app, (events_of_log ty o Hty Ho).
  unfold events_of. cbn. now rewrite String.eqb_refl.
Qed.

(** Among observations that concern another type, none is of type [ty]. *)
Lemma concerns_other (a : BaseAgent) (ty other : string) (o : list obs) :
  other <> ty -> other <> "log" ->
  Forall (concerns a ty) o -> deliveries other o = [] /\ events_of other o = [].
Proof.
  intros H1 H2. unfold events_of, emitted, deliveries.
  induction 1 as [|x o Hx _ [IH1 IH2]]; [split; reflexivity|].
  destruct x as [ty' d|h ty' d|l m]; cbn in *.
  - split; [exact IH1|].
    destruct (String.eqb_spec ty' other) as [->|_]; [|exact IH2].
    destruct Hx; congruence.
  - split; [|exact IH2].
    destruct (String.eqb_spec ty' other) as [->|_]; [|exact IH1].
    destruct Hx as [[?|?] _]; congruence.
  - split; assumption.
Qed.

(** X12.  [publish_event] emits one event of the fixed type
    [event:published], whose data carry the type, the payload, the
    timestamp and the correlation id given; it emits no event of the type
    that was given, so handlers subscribed to that type are not invoked
    (unless the type is [event:published] or [log] itself).  The agent is
    left as it is. *)
Theorem publish_event_wraps (datetime_now : nat -> value)
    (event_type : string) (payload : value) (correlation : option string)
    (st : store) r st' o :
  Events.publish_event datetime_now event_type payload correlation st
  = (r, st', o) ->
  (exists rest,
     o = Emitted "event:published"
           (VDict [("type", VStr event_type);
                   ("data", payload);
                   ("timestamp", datetime_now (ticks st));
                   ("correlation_id",
                    match correlation with
                    | Some c => VStr c
                    | None => VNone
                    end)]) :: rest) /\
  self st' = self st /\
  (event_type <> "event:published" -> event_type <> "log" ->
   deliveries event_type o = [] /\ events_of event_type o = []).
Proof.
  unfold Events.publish_event. rewrite run_tick. cbn [Events.asdict_event
    Events.type Events.data Events.timestamp Events.correlation_id].
  set (st1 := {| self := self st; ticks := S (ticks st) |}).
  set (d := VDict _). intros E.
  change (Events.asdict_event _) with d in E.
  destruct (emit_event_head recursion_limit "event:published" d st1)
    as (r0 & st0 & o0 & E0).
  unfold emit in E. rewrite E0 in E. injection E as <- <- <-.
  destruct (emit_event_concerns _ _ _ (self st) st1 _ _ _ eq_refl E0)
    as [Hs Hc].
  split; [eauto|]. split; [exact Hs|]. intros H1 H2.
  exact (concerns_other _ _ _ _ H1 H2 Hc).
Qed.

Lemma existsb_eqb_elem (k : string) (l : list string) :
  existsb (String.eqb k) l = true <-> k ∈ l.
Proof.
  rewrite existsb_exists, list_elem_of_In. split.
  - intros (x & Hin & E). apply String.eqb_eq in E. now subst x.
  - intros Hin. exists k. split; [exact Hin | apply String.eqb_refl].
Qed.

(** The logger takes data none of whose keys it reserves. *)
Lemma make_record_ok (extra : dict) :
  (forall k, k ∈ map fst extra ->
     k ∉ "message" :: "asctime" :: record_attributes) ->
  make_record extra = Ok tt.
Proof.
  intros Hfree. apply for_each_r_ok. intros [k v] Hin.
  destruct (existsb _ _) eqn:E; [|reflexivity].
  apply existsb_eqb_elem in E. destruct (Hfree k); [|exact E].
  apply list_elem_of_fmap. now exists (k, v).
Qed.

(** It refuses the first key it reserves. *)
Lemma make_record_refuses (pre post : dict) (k : string) (v : value) :
  (forall k', k' ∈ map fst pre ->
     k' ∉ "message" :: "asctime" :: record_attributes) ->
  k ∈ "message" :: "asctime" :: record_attributes ->
  make_record (pre ++ (k, v) :: post) = Raise (overwrite_error k).
Proof.
  intros Hfree Hk. unfold make_record.
  rewrite for_each_r_app. fold (make_record pre).
  rewrite (make_record_ok pre Hfree). cbn [rbind for_each_r fst].
  apply existsb_eqb_elem in Hk. now rewrite Hk.
Qed.

(** X13.  [log] reads the clock, builds the entry, hands the message and
    the data to the logger and then emits one [log] event: the entry
    carries the value of the level, the message, the data (an empty
    mapping when none is given), the timestamp, the agent id, and the
    session id of the context, [None] when the agent has no context yet.
    With no handler subscribed to [log] that is all it does.  This holds
    when the logger is not enabled for the level ([logging]'s 10, 20, 30,
    40 for debug, info, warn, error) or no key of the data is one the
    logger reserves: [message], [asctime] or an attribute of its record.
    When the logger is enabled and the data hold such a key, [log] raises
    the [KeyError] of the first one, after the clock was read, and no
    [log] event is emitted. *)
Theorem log_emits_unless_logging_refuses (level : LogLevel) (message : string)
    (extra : option dict) (st : store) (id : value) :
  dict_get (manifest (self st)) "id" = Some id ->
  let data := default [] extra in
  let reserved := "message" :: "asctime" :: record_attributes in
  let enabled :=
    isEnabledFor
      match level with DEBUG => 10 | INFO => 20 | WARN => 30 | ERROR => 40 end
  in
  let entry := log_entry (self st) (ticks st) level message extra id in
  let st1 := {| self := self st; ticks := S (ticks st) |} in
  (enabled = false \/ (forall k, k ∈ map fst data -> k ∉ reserved) ->
   (exists r st' o,
      log level message extra st
      = (r, st', LogRecord level message :: Emitted "log" entry :: o) /\
      self st' = self st) /\
   (_event_handlers (self st) !! "log" = None ->
    (1 <= recursion_limit)%nat ->
    log level message extra st
    = (Ok tt, st1, [LogRecord level message; Emitted "log" entry]))) /\
  (forall pre k v post,
     enabled = true ->
     data = pre ++ (k, v) :: post ->
     (forall k', k' ∈ map fst pre -> k' ∉ reserved) ->
     k ∈ reserved ->
     log level message extra st
     = (Raise (Exn KeyError
                 (String "034"
                    ("Attempt to overwrite '" +:+ k +:+ "' in LogRecord"
                     +:+ String "034" ""))),
        st1, [])).
Proof.
  intros Hid data reserved enabled entry st1. unfold log, log_with.
  rewrite run_tick, (run_manifest_id _ _ id) by exact Hid.
  rewrite run_get_self. cbn [self]. fold st1.
  match goal with
  | |- context [emit "log" ?x] => change x with entry
  end.
  change (logger_call level (default [] extra))
    with (if enabled then make_record data else Ok tt).
  split.
  - intros Htakes.
    assert (Hcall : (if enabled then make_record data else Ok tt) = Ok tt).
    { destruct Htakes as [-> | Hfree]; [reflexivity|].
      rewrite (make_record_ok data Hfree). now destruct enabled. }
    rewrite Hcall, run_lift_ok, run_tell. split.
    + destruct (emit_event_head recursion_limit "log" entry st1)
        as (r & st' & o & E).
      unfold emit. rewrite E. cbn [prepend app]. exists r, st', o.
      split; [reflexivity|]. exact (keeps_emit_event _ _ _ _ _ _ _ E).
    + intros Hno Hl. unfold emit.
      destruct recursion_limit as [|d]; [lia|].
      subst st1.
      rewrite emit_log_quiet
        by (intros hs h dt Hh; cbn [self] in Hh; congruence).
      cbn [self]. rewrite Hno. reflexivity.
  - intros pre k v post -> Hdata Hfree Hk.
    rewrite Hdata, (make_record_refuses pre post k v Hfree Hk).
    apply run_lift_raise.
Qed.

(** X14.  Publishing an event of a type nobody subscribed to is a silent
    no-op: the call returns, no handler runs, nothing is logged, and the
    store is the one it started in. *)
Theorem emit_without_subscribers (ty : string) (data : value) (st : store) :
  (1 <= recursion_limit)%nat ->
  (_event_handlers (self st) !! ty = None \/
   _event_handlers (self st) !! ty = Some []) ->
  emit ty data st = (Ok tt, st, [Emitted ty data]).
Proof.
  intros Hl Hno. unfold emit. destruct recursion_limit as [|d]; [lia|].
  rewrite emit_event_unfold, run_tell, run_get_self.
  destruct Hno as [-> | ->]; reflexivity.
Qed.

End Bus2.

Section Bus3.
Context {rt : Runtime}.

Lemma emit_log_recurses depth (a : BaseAgent) (h : handler)
    (hs : list handler) (id : value) :
  _event_handlers a !! "log" = Some (h :: hs) ->
  (forall d, exists e, h_call h d = Raise e /\ is_Exception e = true) ->
  dict_get (manifest a) "id" = Some id ->
  forall data st, self st = a ->
    exists st' o, _emit_event depth "log" data st = (Raise recursion_error, st', o).
Proof.
  intros Hh Hr Hid. induction depth as [|d IH]; intros data st Hs.
  - cbn [_emit_event]. rewrite run_tell. unfold raise, prepend. eauto.
  - subst a. rewrite emit_event_unfold, run_tell, run_get_self, Hh.
    cbn [for_each]. destruct (Hr data) as (e & He & Hex).
    set (st1 := {| self := self st; ticks := S (ticks st) |}).
    set (entry := log_entry (self st) (ticks st) ERROR
                    ("Error in event handler for " +:+ "log" +:+ ": "
                     +:+ exn_msg e) None id).
    destruct (IH entry st1 eq_refl) as (st' & o & E).
    erewrite run_fail; cycle 1.
    { rewrite run_tell, He, Hex. unfold log_with.
      rewrite run_tick, (run_manifest_id _ _ id) by exact Hid.
      rewrite run_get_self. cbn [default].
      rewrite run_logger_nil, run_tell.
      match goal with
      | |- context [_emit_event d "log" ?x ?s] =>
          change (_emit_event d "log" x s) with (_emit_event d "log" entry st1)
      end.
      rewrite E. reflexivity. }
    cbn. eauto.
Qed.

(** X15.  A handler subscribed to [log] that raises whenever it is called
    turns any [log] event into unbounded recursion: [_emit_event] logs the
    failure, which emits a [log] event, which calls the handler again.
    Whatever the recursion limit, publishing a [log] event then ends in
    [RecursionError], which leaves the call. *)
Theorem raising_log_handler_exhausts_stack
    (h : handler) (hs : list handler) (id data : value) (st : store) :
  _event_handlers (self st) !! "log" = Some (h :: hs) ->
  (forall d, exists e, h_call h d = Raise e /\ is_Exception e = true) ->
  dict_get (manifest (self st)) "id" = Some id ->
  exists st' o, emit "log" data st = (Raise recursion_error, st', o).
Proof.
  intros Hh Hr Hid.
  exact (emit_log_recurses recursion_limit (self st) h hs id Hh Hr Hid
           data st eq_refl).
Qed.

Lemma for_each_until (pre post : list handler) (h : handler) ty data
    (recover : exn -> M unit) (st : store) r st' o :
  (forall h', h' ∈ pre -> exists u, h_call h' data = Ok u) ->
  (forall e, h_call h data = Raise e -> recover e st = (r, st', o)) ->
  (exists e, h_call h data = Raise e) ->
  (forall x, r <> Ok x) ->
  for_each (pre ++ h :: post) (fun h =>
    bind (tell (Delivered (h_id h) ty data)) (fun _ =>
      match h_call h data with
      | Ok _ => pure tt
      | Raise e => recover e
      end)) st
  = (r, st', handed ty data pre ++ Delivered (h_id h) ty data :: o).
Proof.
  intros Hpre Hrec [e He] Hr. induction pre as [|p pre IH]; cbn [app for_each].
  - destruct r as [x|e']; [destruct (Hr x eq_refl)|].
    erewrite run_fail; [reflexivity|].
    rewrite run_tell, He, (Hrec e He). reflexivity.
  - destruct (Hpre p) as [u Hu]; [left|].
    erewrite run_step; cycle 1.
    { rewrite run_tell, Hu. reflexivity. }
    rewrite IH by (intros h' Hin; apply Hpre; now right). reflexivity.
Qed.

(** X16.  A handler that raises an exception outside [Exception] ends
    the publication there: the handlers before it have run, those after
    it are not invoked, nothing is logged, and the exception leaves
    [_emit_event]. *)
Theorem base_exception_stops_delivery
    (ty : string) (data : value) (pre post : list handler) (h : handler)
    (e : exn) (st : store) :
  (1 <= recursion_limit)%nat ->
  _event_handlers (self st) !! ty = Some (pre ++ h :: post) ->
  (forall h', h' ∈ pre -> exists u, h_call h' data = Ok u) ->
  h_call h data = Raise e ->
  is_Exception e = false ->
  emit ty data st
  = (Raise e, st,
     Emitted ty data :: handed ty data pre ++ [Delivered (h_id h) ty data]).
Proof.
  intros Hl Hh Hpre He Hex. unfold emit.
  destruct recursion_limit as [|d]; [lia|].
  rewrite emit_event_unfold, run_tell, run_get_self, Hh.
  erewrite (for_each_until pre post h ty data _ st (Raise e) st []);
    [reflexivity | exact Hpre | | eauto | discriminate].
  intros e' He'. rewrite He in He'. injection He' as <-.
  now rewrite Hex.
Qed.

End Bus3.

(** ** The lifecycle *)

Section Lifecycle2.
Context {rt : Runtime} {hooks : AgentHooks}.

Lemma keeps_try_except {A} (m : M A) (h : exn -> M A) :
  keeps_self m -> (forall e, keeps_self (h e)) -> keeps_self (try_except m h).
Proof.
  intros Hm Hh st r st' o. unfold try_except.
  destruct (m st) as [[[x|e] st1] o1] eqn:E1.
  - intros [= _ <- _]. exact (Hm _ _ _ _ E1).
  - destruct (is_Exception e).
    + destruct (h e st1) as [[r2 st2] o2] eqn:E2. cbn. intros [= _ <- _].
      rewrite (Hh _ _ _ _ _ E2). exact (Hm _ _ _ _ E1).
    + intros [= _ <- _]. exact (Hm _ _ _ _ E1).
Qed.

(** X17.  [execute] assigns to no attribute of the agent: whatever the
    input, the hook, the handlers and the outcome, the manifest, context,
    configuration, running flag, health and subscriptions after the call
    are those before it. *)
Theorem execute_leaves_agent_unchanged
    (input_data : value) (st : store) r st' o :
  execute input_data st = (r, st', o) -> self st' = self st.
Proof.
  revert st r st' o. change (keeps_self (execute input_data)).
  unfold execute. apply keeps_bind; [apply keeps_get_self|]. intros a.
  destruct (negb (is_running a)); [apply keeps_raise|].
  apply keeps_bind; [apply keeps_tick|]. intros task_id.
  apply keeps_bind; [apply keeps_tick|]. intros start_time.
  apply keeps_try_except.
  - unfold execute_task. keeps.
  - intros e. unfold execute_failed. keeps.
Qed.

End Lifecycle2.

Section HookIndependence.
Context {rt : Runtime}.

(** X18.  When the input does not pass [_validate_input] the hook is not
    called: [execute] ends in the same way, in the same store and with
    the same events, whatever [on_execute] (and the other hooks) are. *)
Theorem invalid_input_never_reaches_hook
    (hooks1 hooks2 : AgentHooks) (input_data : value) (st : store) (e : exn) :
  _validate_input (self st) input_data = Raise e ->
  execute (hooks := hooks1) input_data st
  = execute (hooks := hooks2) input_data st.
Proof.
  intros Hv. unfold execute. rewrite !run_get_self.
  destruct (negb (is_running (self st))); [reflexivity|].
  rewrite !run_tick. cbn [self ticks].
  set (st0 := {| self := self st; ticks := S (S (ticks st)) |}).
  unfold try_except.
  assert (Ht : execute_task (hooks := hooks1) (uuid4 (ticks st))
                 (time_time (S (ticks st))) input_data st0
               = execute_task (hooks := hooks2) (uuid4 (ticks st))
                   (time_time (S (ticks st))) input_data st0).
  { unfold execute_task.
    destruct (dict_get (manifest (self st)) "id") as [id|] eqn:Hid.
    2:{ assert (Hm : manifest_id st0 = (Raise (Exn KeyError "'id'"), st0, [])).
        { unfold manifest_id. rewrite run_get_self. unfold lift.
          cbn [py_getitem self st0]. now rewrite Hid. }
        now rewrite !(run_fail _ _ _ _ _ _ Hm). }
    rewrite !(run_manifest_id _ st0 id Hid).
    set (d := VDict _).
    destruct (emit "task:started" d st0) as [[[[]|e1] st1] o1] eqn:E1.
    - rewrite !(run_step _ _ _ _ _ _ E1), !run_get_self.
      rewrite (keeps_emit _ _ _ _ _ _ E1). change (self st0) with (self st).
      rewrite Hv, !run_lift_raise. reflexivity.
    - rewrite !(run_fail _ _ _ _ _ _ E1). reflexivity. }
  rewrite Ht. reflexivity.
Qed.

End HookIndependence.

Section Lifecycle3.
Context {rt : Runtime} {hooks : AgentHooks}.

Lemma initialize_self (ctx : AgentContext) cfg (st : store) merged r st' o :
  merged_config (self st) (default [] cfg) = Ok merged ->
  initialize ctx cfg st = (r, st', o) ->
  self st' = initializing (self st) ctx merged.
Proof.
  intros Hm. unfold initialize.
  rewrite run_get_self, run_set_self, run_get_self. cbn [self].
  change (merged_config (with_context (self st) (Some ctx)))
    with (merged_config (self st)).
  rewrite Hm, run_lift_ok, run_set_self, run_get_self, run_set_self.
  intros Hs. frame_rest Hs. reflexivity.
Qed.

(** X19.  [initialize] stores the context and the configuration before it
    calls the hook, so they are set whatever the outcome of the call.
    The configuration is the manifest's [config] mapping (empty when the
    manifest has none) updated with the caller's: a key the caller gives
    has the caller's value, any other key the manifest's.  [get_config]
    and [get_context] then return them. *)
Theorem initialize_merges_config
    (ctx : AgentContext) (cfg : option dict) (base : dict)
    (st : store) r st' o :
  dict_get_default (manifest (self st)) "config" (VDict []) = VDict base ->
  initialize ctx cfg st = (r, st', o) ->
  (forall k,
     dict_get (config (self st')) k
     = match dict_get (rev (default [] cfg)) k with
       | Some v => Some v
       | None => dict_get (rev base) k
       end) /\
  context (self st') = Some ctx /\
  manifest (self st') = manifest (self st) /\
  Events.get_config st' = (Ok (config (self st')), st', []) /\
  Events.get_context st' = (Ok (Some ctx), st', []).
Proof.
  intros Hb Hi.
  assert (Hm : merged_config (self st) (default [] cfg)
               = Ok (dict_update (dict_update [] base) (default [] cfg))).
  { unfold merged_config. now rewrite Hb. }
  pose proof (initialize_self _ _ _ _ _ _ _ Hm Hi) as Hs.
  unfold Events.get_config, Events.get_context.
  rewrite !run_get_self, Hs. cbn [initializing with_is_running with_config
    with_context config context manifest]. unfold pure.
  repeat split.
  intros k. rewrite !dict_get_update. cbn [dict_get].
  destruct (dict_get (rev (default [] cfg)) k); [reflexivity|].
  destruct (dict_get (rev base) k); reflexivity.
Qed.

(** X20.  When the manifest's [config] is no mapping, [initialize] fails
    with a [TypeError] while it builds the configuration: the context has
    been stored by then, but the configuration and the running flag are
    as before, the hook has not run and nothing was emitted. *)
Theorem initialize_rejects_non_mapping_config
    (ctx : AgentContext) (cfg : option dict) (v : value) (st : store) :
  dict_get (manifest (self st)) "config" = Some v ->
  (forall d, v <> VDict d) ->
  initialize ctx cfg st
  = (Raise (Exn TypeError
              ("'" +:+ type_name v +:+ "' object is not a mapping")),
     {| self := with_context (self st) (Some ctx); ticks := ticks st |}, []).
Proof.
  intros Hc Hv. unfold initialize.
  rewrite run_get_self, run_set_self, run_get_self. cbn [self].
  unfold merged_config, dict_get_default. cbn [manifest with_context].
  rewrite Hc. destruct v; try apply run_lift_raise.
  destruct (Hv d eq_refl).
Qed.

(** X21.  When [on_initialize] returns and handler failures are
    contained, [initialize] returns and has emitted exactly one
    [agent:initialized] event, which carries the agent id of the manifest
    and the context as a mapping: the keys [agent_id], [session_id],
    [user_id] and [metadata], in that order, bound to the fields of the
    context, with [None] for a user id that is not set. *)
Theorem initialize_emits_initialized
    (ctx : AgentContext) (cfg : option dict) (merged : dict)
    (st : store) (id : value) :
  (2 <= recursion_limit)%nat ->
  contained (self st) ->
  dict_get (manifest (self st)) "id" = Some id ->
  merged_config (self st) (default [] cfg) = Ok merged ->
  on_initialize (initializing (self st) ctx merged) = Ok tt ->
  exists st' o,
    initialize ctx cfg st = (Ok tt, st', o) /\
    self st' = initializing (self st) ctx merged /\
    events_of "agent:initialized" o
    = [VDict [("agent_id", id);
              ("context",
               VDict [("agent_id", VStr (agent_id ctx));
                      ("session_id", VStr (session_id ctx));
                      ("user_id",
                       match user_id ctx with
                       | Some u => VStr u
                       | None => VNone
                       end);
                      ("metadata", VDict (metadata ctx))])]].
Proof.
  intros Hl Hc Hid Hm Hh. unfold initialize.
  rewrite run_get_self, run_set_self, run_get_self. cbn [self].
  change (merged_config (with_context (self st) (Some ctx)))
    with (merged_config (self st)).
  rewrite Hm, run_lift_ok, run_set_self, run_get_self, run_set_self.
  rewrite run_get_self. cbn [self ticks].
  fold (initializing (self st) ctx merged). rewrite Hh, run_lift_ok.
  set (st1 := {| self := initializing (self st) ctx merged; ticks := ticks st |}).
  rewrite (run_manifest_id _ st1 id Hid).
  set (d := VDict _).
  destruct (emit_spec "agent:initialized" d st1 id Hl Hc Hid)
    as (st' & o & E & D).
  exists st', (Emitted "agent:initialized" d :: o). split; [exact E|].
  split; [exact (dl_self _ _ _ _ _ _ D)|].
  apply events_of_emit; [discriminate | exact (dl_emitted _ _ _ _ _ _ D)].
Qed.

Lemma shutdown_spec (st : store) (id : value) :
  (2 <= recursion_limit)%nat ->
  contained (self st) ->
  dict_get (manifest (self st)) "id" = Some id ->
  on_shutdown (with_is_running (self st) false) = Ok tt ->
  exists st' o,
    shutdown st = (Ok tt, st', o) /\
    self st' = with_is_running (self st) false /\
    events_of "agent:shutdown" o = [VDict [("agent_id", id)]].
Proof.
  intros Hl Hc Hid Hh. unfold shutdown.
  rewrite run_get_self, run_set_self, run_get_self. cbn [self].
  rewrite Hh, run_lift_ok.
  set (st1 := {| self := with_is_running (self st) false; ticks := ticks st |}).
  rewrite (run_manifest_id _ st1 id Hid).
  set (d := VDict _).
  destruct (emit_spec "agent:shutdown" d st1 id Hl Hc Hid)
    as (st' & o & E & D).
  exists st', (Emitted "agent:shutdown" d :: o). split; [exact E|].
  split; [exact (dl_self _ _ _ _ _ _ D)|].
  apply events_of_emit; [discriminate | exact (dl_emitted _ _ _ _ _ _ D)].
Qed.

(** X22.  [shutdown] does not look at the running flag: called on an
    agent that is already shut down it runs again in full.  Two calls in
    a row, with a hook that returns and contained handler failures, both
    return and emit [agent:shutdown] twice. *)
Theorem shutdown_twice_emits_twice (st : store) (id : value) :
  (2 <= recursion_limit)%nat ->
  contained (self st) ->
  dict_get (manifest (self st)) "id" = Some id ->
  on_shutdown (with_is_running (self st) false) = Ok tt ->
  exists st' o,
    bind shutdown (fun _ => shutdown) st = (Ok tt, st', o) /\
    is_running (self st') = false /\
    events_of "agent:shutdown" o
    = [VDict [("agent_id", id)]; VDict [("agent_id", id)]].
Proof.
  intros Hl Hc Hid Hh.
  destruct (shutdown_spec st id Hl Hc Hid Hh) as (st1 & o1 & E1 & S1 & V1).
  destruct (shutdown_spec st1 id Hl) as (st2 & o2 & E2 & S2 & V2);
    try (rewrite S1; assumption).
  exists st2, (o1 ++ o2). split; [|split].
  - rewrite (run_step _ _ _ _ _ _ E1), E2. reflexivity.
  - now rewrite S2.
  - now rewrite events_of_app, V1, V2.
Qed.

(** X23.  [update_health] assigns to the health of the agent and to
    nothing else: after the call, whatever its outcome, the agent is the
    one before it with the merged health. *)
Theorem update_health_changes_health_only
    (new_status : option string) (new_details new_metrics : option dict)
    (st : store) r st' o :
  update_health new_status new_details new_metrics st = (r, st', o) ->
  self st'
  = with_health_status (self st)
      (updated_health (health_status (self st))
         new_status new_details new_metrics).
Proof.
  unfold update_health.
  set (rest := bind get_self _).
  assert (K : keeps_self rest) by (unfold rest; keeps).
  destruct st as [a t]. cbn [self].
  destruct new_status as [s|], new_details as [d|], new_metrics as [m|];
    repeat first [ rewrite run_pure | rewrite run_get_self
                 | rewrite run_set_self | rewrite (run_step _ _ _ tt _ [])
                     by (first [ now rewrite run_get_self, run_set_self
                               | reflexivity ]) ];
    cbn [prepend self ticks health_status with_health_status
           status details metrics app];
    rewrite ?prepend_nil; intros E; rewrite (K _ _ _ _ E);
    destruct a as [? ? ? ? [? ? ?] ?]; reflexivity.
Qed.

(** X24.  Subscriptions are not deduplicated and are kept per type: a
    handler subscribed twice to a type is invoked twice for each event of
    the type, and the handlers of every other type are as before. *)
Theorem double_subscription_delivers_twice
    (ty : string) (h : handler) (data : value) (st : store) :
  (1 <= recursion_limit)%nat ->
  _event_handlers (self st) !! ty = None ->
  (exists u, h_call h data = Ok u) ->
  exists st1,
    bind (on_event ty h) (fun _ => on_event ty h) st = (Ok tt, st1, []) /\
    emit ty data st1
    = (Ok tt, st1,
       [Emitted ty data; Delivered (h_id h) ty data;
        Delivered (h_id h) ty data]) /\
    forall ty', ty' <> ty ->
      _event_handlers (self st1) !! ty' = _event_handlers (self st) !! ty'.
Proof.
  intros Hl Hno Hu.
  eexists. split; [|split].
  - rewrite (run_step _ _ _ _ _ _ (on_event_spec ty h st)), on_event_spec.
    reflexivity.
  - unfold emit. destruct recursion_limit as [|d]; [lia|].
    rewrite emit_event_unfold, run_tell, run_get_self.
    cbn [self with_event_handlers _event_handlers].
    rewrite !lookup_insert_eq, Hno. cbn [default app]. unfold id.
    rewrite for_each_quiet; [reflexivity|].
    intros h' Hin. apply elem_of_cons in Hin as [->|Hin]; [exact Hu|].
    apply list_elem_of_singleton in Hin as ->. exact Hu.
  - intros ty' Hne. cbn [self with_event_handlers _event_handlers].
    now rewrite !lookup_insert_ne by congruence.
Qed.

End Lifecycle3.

(* ===================================================================== *)
(** * The further properties on concrete agents *)
(* ===================================================================== *)

Section MoreExamples.
Import Sample MoreSamples.
#[local] Existing Instance runtime.

Lemma fresh_contained (m : dict) : contained (self (fresh m)).
Proof. intros ty hs h data e Hl. cbn in Hl. now rewrite lookup_empty in Hl. Qed.

Lemma all_required_fields (m : dict) :
  forallb (dict_has m) required_fields = true ->
  forall k, k ∈ required_fields -> dict_has m k = true.
Proof.
  intros Hall k Hk. rewrite forallb_forall in Hall. apply Hall.
  now apply list_elem_of_In.
Qed.

Lemma triple_eta {A B C} (x : A * B * C) : x = (x.1.1, x.1.2, x.2).
Proof. now destruct x as [[? ?] ?]. Qed.

(** ** Validation *)

Example type_check_examples :
  _validate_value (VList []) (VDict [("type", VStr "array")]) "xs" = Ok tt /\
  _validate_value (VStr "x") (VDict [("type", VStr "text")]) "note" = Ok tt /\
  _validate_value (VInt 1) (VDict [("type", VStr "text")]) "note"
  = Raise (Exn ValueError "Expected string for 'note', got int") /\
  _validate_value VNone (VDict [("type", VStr "object")]) "cfg"
  = Raise (Exn ValueError "Expected object for 'cfg', got NoneType").
Proof. vm_compute. auto. Qed.

Lemma undeclared_type_is_unchecked_witness :
  _validate_value (VStr "seven") (VDict [("type", VStr "integer")]) "count"
  = Ok tt.
Proof.
  apply (undeclared_type_is_unchecked (VStr "seven")
           [("type", VStr "integer")] "count").
  right. exists "integer". split; [reflexivity|].
  unfold known_types. rewrite !not_elem_of_cons.
  repeat split; try discriminate. apply not_elem_of_nil.
Defined.

Lemma required_number_with_min_witness :
  _validate_input (agent_of amount_min_manifest) (VDict [("amount", VInt (-5))])
  = Raise (Exn ValueError "Value for 'amount' must be >= 0") /\
  _validate_input (agent_of amount_min_manifest) (VDict [("amount", VInt 10)])
  = Ok tt.
Proof.
  split.
  - exact (required_number_with_min (agent_of amount_min_manifest)
             "amount" 0 (-5) eq_refl).
  - exact (required_number_with_min (agent_of amount_min_manifest)
             "amount" 0 10 eq_refl).
Defined.

Example length_examples :
  _validate_constraints (VInt 100) (VDict [("maxLength", VInt 2)]) "n"
  = Raise (Exn ValueError "Value for 'n' must have length <= 2") /\
  _validate_constraints (VBool true)
    (VDict [("minLength", VInt 4); ("maxLength", VInt 4)]) "flag" = Ok tt.
Proof. vm_compute. auto. Qed.

(** The three letters of [abc] lie within 2 and 5; [-12345] has six
    characters, the sign among them. *)
Lemma length_bounds_measure_str_witness :
  _validate_constraints (VStr "abc")
    (VDict [("minLength", VInt 2); ("maxLength", VInt 5)]) "code" = Ok tt /\
  _validate_constraints (VInt (-12345))
    (VDict [("minLength", VInt 6); ("maxLength", VInt 6)]) "code" = Ok tt.
Proof.
  split.
  - apply (proj1 (length_bounds_measure_str 2 5 "code") "abc").
    + reflexivity.
    + cbn. lia.
  - apply (proj1 (proj2 (length_bounds_measure_str 6 6 "code")) (-12345)%Z).
    + vm_compute. reflexivity.
    + vm_compute. split; discriminate.
Defined.

Lemma min_is_reported_first_witness :
  _validate_constraints (VInt (-5))
    (VDict [("pattern", VStr "a"); ("max", VInt (-10)); ("min", VInt 0)])
    "amount"
  = Raise (Exn ValueError "Value for 'amount' must be >= 0").
Proof.
  exact (min_is_reported_first (VInt (-5)) (VInt 0)
           [("pattern", VStr "a"); ("max", VInt (-10)); ("min", VInt 0)]
           "amount" eq_refl eq_refl).
Defined.

Lemma min_on_string_raises_type_error_witness :
  _validate_value (VStr "abc")
    (VDict [("type", VStr "string"); ("constraints", VDict [("min", VInt 0)])])
    "name"
  = Raise (Exn TypeError
             "'<' not supported between instances of 'str' and 'int'").
Proof.
  exact (min_on_string_raises_type_error "abc" 0 [("min", VInt 0)] "name"
           eq_refl).
Defined.

Lemma undeclared_input_keys_ignored_witness :
  _validate_input (agent_of (amount_manifest true true))
    (VDict [("amount", VInt 1); ("note", VStr "x")])
  = _validate_input (agent_of (amount_manifest true true))
      (VDict [("amount", VInt 1)]).
Proof.
  exact (undeclared_input_keys_ignored (agent_of (amount_manifest true true))
           [("amount", number_field true)] [("amount", VInt 1)] "note"
           (VStr "x") eq_refl eq_refl).
Defined.

Example empty_schema_examples :
  _validate_input (agent_of plain_manifest) (VStr "no mapping") = Ok tt /\
  _validate_output (agent_of plain_manifest) VNone = Ok tt /\
  _validate_output (agent_of total_manifest) VNone
  = Raise (Exn TypeError "argument of type 'NoneType' is not iterable").
Proof. vm_compute. auto. Qed.


(** A manifest without [name] and [runtime], one whose metadata has no
    [tags], and a complete one. *)
Lemma manifest_required_keys_witness :
  (exists msg, __init__ nameless_manifest = Raise (Exn ValueError msg)) /\
  (exists msg, __init__ untagged_manifest = Raise (Exn ValueError msg)) /\
  (exists a,
     __init__ plain_manifest = Ok a /\ manifest a = plain_manifest /\
     is_running a = false).
Proof.
  split; [|split].
  - apply (proj1 (manifest_required_keys nameless_manifest) "runtime").
    + apply list_elem_of_In. cbn. tauto.
    + reflexivity.
  - apply (proj1 (proj2 (manifest_required_keys untagged_manifest))
             [("author", VStr "a"); ("category", VStr "c")] "tags").
    + reflexivity.
    + apply list_elem_of_In. cbn. tauto.
    + reflexivity.
  - apply (proj2 (proj2 (manifest_required_keys plain_manifest))
             [("author", VStr "a"); ("tags", VList []); ("category", VStr "c")]).
    + exact (all_required_fields plain_manifest eq_refl).
    + reflexivity.
    + intros k Hk.
      repeat (apply elem_of_cons in Hk as [->|Hk]; [reflexivity|]).
      now apply elem_of_nil in Hk.
Defined.

Lemma metadata_need_not_be_a_mapping_witness :
  (exists a, __init__ listed_metadata_manifest = Ok a) /\
  __init__ numeric_metadata_manifest
  = Raise (Exn TypeError "argument of type 'int' is not iterable").
Proof.
  split.
  - apply (proj1 (metadata_need_not_be_a_mapping listed_metadata_manifest
                    (VList [VStr "author"; VStr "tags"; VStr "category"])
                    (all_required_fields listed_metadata_manifest eq_refl)
                    eq_refl)
             _ eq_refl).
    intros k Hk. unfold required_metadata in Hk.
    repeat (apply elem_of_cons in Hk as [->|Hk]; [reflexivity|]).
    now apply elem_of_nil in Hk.
  - exact (proj2 (metadata_need_not_be_a_mapping numeric_metadata_manifest
                    (VInt 5)
                    (all_required_fields numeric_metadata_manifest eq_refl)
                    eq_refl)
             (or_introl eq_refl)).
Defined.

(** ** The event bus *)

Lemma emit_reaches_only_subscribers_witness :
  let st := subscribed "X" [h_bad; h_ok] in
  self (emit "X" VNone st).1.2 = self st /\
  Forall (concerns (self st) "X") (emit "X" VNone st).2.
Proof.
  exact (emit_reaches_only_subscribers "X" VNone
           (subscribed "X" [h_bad; h_ok]) _ _ _ (triple_eta _)).
Defined.

Lemma publish_event_wraps_witness :
  let st := subscribed "X" [h_ok] in
  let o := (Events.publish_event datetime_at "X" (VInt 7) None st).2 in
  o = [Emitted "event:published"
         (VDict [("type", VStr "X"); ("data", VInt 7);
                 ("timestamp", datetime_at 0); ("correlation_id", VNone)])] /\
  deliveries "X" o = [] /\ events_of "X" o = [].
Proof.
  destruct (publish_event_wraps datetime_at "X" (VInt 7) None
              (subscribed "X" [h_ok]) _ _ _ (triple_eta _)) as (_ & _ & Hno).
  split; [reflexivity|]. apply Hno; discriminate.
Defined.

(** A warning with data of the caller's own is logged and emitted; an
    error whose data hold [message] is refused by the logger. *)
Lemma log_emits_unless_logging_refuses_witness :
  log WARN "careful" (Some [("user", VStr "u")]) (fresh plain_manifest)
  = (Ok tt, {| self := agent_of plain_manifest; ticks := 1 |},
     [LogRecord WARN "careful";
      Emitted "log"
        (VDict [("level", VStr "warn"); ("message", VStr "careful");
                ("data", VDict [("user", VStr "u")]);
                ("timestamp", VStr "2024-01-01T00:00:0");
                ("agent_id", VStr "echo"); ("session_id", VNone)])]) /\
  log ERROR "failed" (Some [("user", VStr "u"); ("message", VStr "m")])
    (fresh plain_manifest)
  = (Raise (Exn KeyError
              (String "034"
                 ("Attempt to overwrite 'message' in LogRecord"
                  +:+ String "034" ""))),
     {| self := agent_of plain_manifest; ticks := 1 |}, []).
Proof.
  split.
  - refine (proj2 (proj1 (log_emits_unless_logging_refuses WARN "careful"
                            (Some [("user", VStr "u")]) (fresh plain_manifest)
                            (VStr "echo") eq_refl) (or_intror _)) eq_refl _).
    + intros k Hk. apply list_elem_of_singleton in Hk as ->.
      rewrite <- existsb_eqb_elem. vm_compute. discriminate.
    + cbn. lia.
  - refine (proj2 (log_emits_unless_logging_refuses ERROR "failed"
                     (Some [("user", VStr "u"); ("message", VStr "m")])
                     (fresh plain_manifest) (VStr "echo") eq_refl)
              [("user", VStr "u")] "message" (VStr "m") [] eq_refl eq_refl _ _).
    + intros k Hk. apply list_elem_of_singleton in Hk as ->.
      rewrite <- existsb_eqb_elem. vm_compute. discriminate.
    + left.
Defined.

Lemma emit_without_subscribers_witness :
  emit "X" VNone (running plain_manifest)
  = (Ok tt, running plain_manifest, [Emitted "X" VNone]).
Proof.
  apply emit_without_subscribers; [cbn; lia | left; reflexivity].
Defined.

Lemma raising_log_handler_exhausts_stack_witness :
  exists st' o,
    emit "log" VNone (subscribed "log" [h_bad])
    = (Raise recursion_error, st', o).
Proof.
  apply (raising_log_handler_exhausts_stack h_bad [] (VStr "echo") VNone
           (subscribed "log" [h_bad])).
  - reflexivity.
  - intros d. eexists. split; reflexivity.
  - reflexivity.
Defined.

Lemma base_exception_stops_delivery_witness :
  emit "X" VNone (subscribed "X" [h_ok; h_interrupt; h_bad])
  = (Raise (Exn BaseOnly "KeyboardInterrupt"),
     subscribed "X" [h_ok; h_interrupt; h_bad],
     [Emitted "X" VNone; Delivered 2 "X" VNone; Delivered 3 "X" VNone]).
Proof.
  apply (base_exception_stops_delivery "X" VNone [h_ok] [h_bad] h_interrupt
           (Exn BaseOnly "KeyboardInterrupt")
           (subscribed "X" [h_ok; h_interrupt; h_bad])).
  - cbn. lia.
  - reflexivity.
  - intros h Hh. apply list_elem_of_singleton in Hh as ->. now exists tt.
  - reflexivity.
  - reflexivity.
Defined.

Lemma double_subscription_delivers_twice_witness :
  exists st1,
    bind (on_event "X" h_ok) (fun _ => on_event "X" h_ok)
      (running plain_manifest) = (Ok tt, st1, []) /\
    emit "X" VNone st1
    = (Ok tt, st1,
       [Emitted "X" VNone; Delivered 2 "X" VNone; Delivered 2 "X" VNone]) /\
    forall ty', ty' <> "X" ->
      _event_handlers (self st1) !! ty'
      = _event_handlers (self (running plain_manifest)) !! ty'.
Proof.
  apply (double_subscription_delivers_twice "X" h_ok VNone
           (running plain_manifest)).
  - cbn. lia.
  - reflexivity.
  - now exists tt.
Defined.

(** ** The lifecycle *)

Lemma execute_leaves_agent_unchanged_witness :
  let st := subscribed "task:started" [h_bad] in
  self (execute (hooks := broken) (VDict []) st).1.2 = self st.
Proof.
  exact (execute_leaves_agent_unchanged (hooks := broken) (VDict [])
           (subscribed "task:started" [h_bad]) _ _ _ (triple_eta _)).
Defined.

Lemma invalid_input_never_reaches_hook_witness :
  execute (hooks := echo) (VDict []) (running amount_min_manifest)
  = execute (hooks := broken) (VDict []) (running amount_min_manifest).
Proof.
  exact (invalid_input_never_reaches_hook echo broken (VDict [])
           (running amount_min_manifest)
           (Exn ValueError "Required input 'amount' is missing") eq_refl).
Defined.

Lemma initialize_merges_config_witness :
  let st' :=
    (initialize (hooks := broken) ctx (Some [("timeout", VInt 30)])
       (fresh configured_manifest)).1.2 in
  (forall k,
     dict_get (config (self st')) k
     = match dict_get [("timeout", VInt 30)] k with
       | Some v => Some v
       | None => dict_get [("retries", VInt 3); ("timeout", VInt 10)] k
       end) /\
  context (self st') = Some ctx /\
  manifest (self st') = configured_manifest /\
  Events.get_config st' = (Ok (config (self st')), st', []) /\
  Events.get_context st' = (Ok (Some ctx), st', []).
Proof.
  exact (initialize_merges_config (hooks := broken) ctx
           (Some [("timeout", VInt 30)])
           [("timeout", VInt 10); ("retries", VInt 3)]
           (fresh configured_manifest) _ _ _ eq_refl (triple_eta _)).
Defined.

Example initialize_config_examples :
  config (self (initialize (hooks := echo) ctx (Some [("timeout", VInt 30)])
                  (fresh plain_manifest)).1.2)
  = [("timeout", VInt 30)] /\
  config (self (initialize (hooks := echo) ctx (Some [("timeout", VInt 30)])
                  (fresh configured_manifest)).1.2)
  = [("timeout", VInt 30); ("retries", VInt 3)].
Proof. vm_compute. auto. Qed.

Lemma initialize_rejects_non_mapping_config_witness :
  initialize (hooks := echo) ctx None (fresh misconfigured_manifest)
  = (Raise (Exn TypeError "'int' object is not a mapping"),
     {| self := with_context (agent_of misconfigured_manifest) (Some ctx);
        ticks := 0 |}, []).
Proof.
  apply (initialize_rejects_non_mapping_config (hooks := echo) ctx None
           (VInt 5) (fresh misconfigured_manifest)).
  - reflexivity.
  - discriminate.
Defined.

Lemma initialize_emits_initialized_witness :
  exists st' o,
    initialize (hooks := echo) ctx None (fresh plain_manifest)
    = (Ok tt, st', o) /\
    self st' = initializing (agent_of plain_manifest) ctx [] /\
    events_of "agent:initialized" o
    = [VDict [("agent_id", VStr "echo");
              ("context",
               VDict [("agent_id", VStr "echo");
                      ("session_id", VStr "s1");
                      ("user_id", VNone);
                      ("metadata", VDict [])])]].
Proof.
  apply (initialize_emits_initialized (hooks := echo) ctx None []
           (fresh plain_manifest) (VStr "echo")).
  - cbn. lia.
  - apply fresh_contained.
  - reflexivity.
  - reflexivity.
  - reflexivity.
Defined.

Lemma shutdown_twice_emits_twice_witness :
  exists st' o,
    bind (shutdown (hooks := echo)) (fun _ => shutdown (hooks := echo))
      (running plain_manifest) = (Ok tt, st', o) /\
    is_running (self st') = false /\
    events_of "agent:shutdown" o
    = [VDict [("agent_id", VStr "echo")]; VDict [("agent_id", VStr "echo")]].
Proof.
  apply (shutdown_twice_emits_twice (hooks := echo) (running plain_manifest)
           (VStr "echo")).
  - cbn. lia.
  - apply no_handlers_contained.
  - reflexivity.
  - reflexivity.
Defined.

Lemma update_health_changes_health_only_witness :
  let st := subscribed "health:updated" [h_bad] in
  self (update_health (Some "degraded") None (Some [("load", VInt 3)]) st).1.2
  = with_health_status (self st)
      {| status := "degraded"; details := []; metrics := [("load", VInt 3)] |}.
Proof.
  exact (update_health_changes_health_only (Some "degraded") None
           (Some [("load", VInt 3)]) (subscribed "health:updated" [h_bad])
           _ _ _ (triple_eta _)).
Defined.

End MoreExamples.
